(** * The generation pipeline of [ConfigContext.tsx]

    A shallow embedding of the coordinator in
    [src/context/ConfigContext.tsx]: the dispatch routine [runGeneration],
    its debounced and immediate triggers [processInput] and [generateNow],
    and the two worker message handlers [handleErgogenWorkerMessage] and
    [handleJscadWorkerMessage].

    React state ([useState]) and refs ([useRef]) become fields of one
    [State] record that every operation threads explicitly; a
    [postMessage] to a worker appends the request to an outbox kept in the
    same record.  Numbers are [Z] (the counters only ever take small
    integral values, so the floating point representation of JavaScript
    numbers is not modelled). *)

From stdpp Require Import gmap strings list fin_maps pretty.
From Stdlib Require Import ZArith String Ascii Lia Sorted.

Set Warnings "-register-all".

Local Open Scope string_scope.
Local Open Scope Z_scope.

(** ** JavaScript values, as [JSON.parse] and [yaml.load] produce them *)

Module Js.

(** An object is the list of its own enumerable properties in
    enumeration order, the order [Object.values] returns them in. *)
Inductive value :=
| Undefined
| Null
| Bool (b : bool)
| Num (n : Z)
| Str (s : string)
| Arr (items : list value)
| Obj (fields : list (string * value)).

(** [ToBoolean]. *)
Definition truthy (v : value) : bool :=
  match v with
  | Undefined | Null => false
  | Bool b => b
  | Num n => negb (n =? 0)
  | Str s => negb (String.eqb s "")
  | Arr _ | Obj _ => true
  end.

Fixpoint lookup_field (k : string) (fields : list (string * value)) : value :=
  match fields with
  | [] => Undefined
  | (k', v) :: rest => if String.eqb k k' then v else lookup_field k rest
  end.

(** [v.k] for one of the property names the coordinator reads
    ([pcbs], [points], [template], [footprints], [what]): none of them is
    a built-in property of a string, a number, a boolean or an array, so
    the read yields [undefined] there.  [None] is the [TypeError] of a
    read on [null] or [undefined]. *)
Definition get (v : value) (k : string) : option value :=
  match v with
  | Undefined | Null => None
  | Obj fields => Some (lookup_field k fields)
  | _ => Some Undefined
  end.

(** [v?.k]. *)
Definition get_opt (v : value) (k : string) : value :=
  match get v k with
  | Some x => x
  | None => Undefined
  end.

Fixpoint chars (s : string) : list value :=
  match s with
  | EmptyString => []
  | String c rest => Str (String c EmptyString) :: chars rest
  end.

(** [Object.values(v)] for a truthy [v]. *)
Definition values (v : value) : list value :=
  match v with
  | Obj fields => map snd fields
  | Arr items => items
  | Str s => chars s
  | _ => []
  end.

(** [v === 'lit']. *)
Definition is_string (lit : string) (v : value) : bool :=
  match v with
  | Str s => String.eqb s lit
  | _ => false
  end.

(** [typeof v === 'string' && v.startsWith(p)]. *)
Definition string_startsWith (p : string) (v : value) : bool :=
  match v with
  | Str s => String.prefix p s
  | _ => false
  end.

(** The property list of [{...{fields}, k: v}]: an existing key keeps its
    place and takes the new value, a new key goes last. *)
Fixpoint set_field (k : string) (v : value) (fields : list (string * value))
  : list (string * value) :=
  match fields with
  | [] => [(k, v)]
  | (k', v') :: rest =>
      if String.eqb k k' then (k', v) :: rest
      else (k', v') :: set_field k v rest
  end.

End Js.

(** ** Result documents *)

(** An optional string property of an object: missing, present with the
    value [undefined], or present with a string. *)
Inductive field :=
| Absent
| Undef
| Text (s : string).

(** What reading the property gives ([None] is [undefined]). *)
Definition read (f : field) : option string :=
  match f with
  | Text s => Some s
  | _ => None
  end.

Definition field_truthy (f : field) : bool :=
  match f with
  | Text s => negb (String.eqb s "")
  | _ => false
  end.

(** [type CaseOutput = { jscad?: string; stl?: string }]. *)
Record CaseOutput := mkCase {
  jscad : field;
  stl : field
}.

(** [type Results]: the [cases] category, and every other category
    (canonical, points, units, demo, outlines, pcbs, ...) under its key. *)
Record Results := mkResults {
  cases : option (gmap string CaseOutput);
  others : gmap string Js.value
}.

(** ** Worker protocols *)

(** The message [runGeneration] posts to the Ergogen worker.  [requestId]
    is the text [ergogen-generate-<version>-<Date.now()>], kept as the pair
    of its two numbers. *)
Record ErgogenRequest := mkErgogenRequest {
  inputConfig : Js.value;
  injectionInput : option (list (list string));
  requestId : Z * Z;
  options_debug : bool;
  options_svg : bool
}.

(** The fields of an Ergogen worker response that the handler reads. *)
Inductive ErgogenWorkerResponse :=
| ErgogenError (message : string)
| ErgogenSuccess (res : option Results) (warnings : list string)
| ErgogenOther.

Record JscadWorkerRequest := mkJscadRequest {
  request_results : Results;
  request_configVersion : Z
}.

Inductive JscadResponseType := JscadSuccess | JscadError.

Record JscadWorkerResponse := mkJscadResponse {
  response_type : JscadResponseType;
  response_configVersion : Z;
  response_results : option Results
}.

(** ** The coordinator's state *)

Record ProcessOptions := mkOptions { pointsonly : bool }.

(** The arguments of one call of [runGeneration], [processInput] or
    [generateNow]; [None] is [undefined]. *)
Record Args := mkArgs {
  textInput : option string;
  injections : option (list (list string));
  options : option ProcessOptions
}.

(** What a throwing [postMessage] throws, by the cases the [catch] block
    tells apart. *)
Inductive thrown :=
| ThrownString (s : string)
| ThrownObject (toString : string)
| ThrownOther (is_truthy : bool).

(** [ergogenWorkerRef.current]: [null], or a worker whose [postMessage]
    returns or throws. *)
Inductive worker :=
| NoWorker
| Worker (post_throws : option thrown).

(** Settings and refs that the modelled operations only read.  A change
    of a setting re-creates the handlers and the workers; a run keeps them
    fixed. *)
Record Env := mkEnv {
  stlPreview : bool;
  debug : bool;
  ergogenWorkerRef : worker;
  jscadWorkerRef : bool
}.

Record State := mkState {
  error : option string;
  deprecationWarning : option string;
  results : option Results;
  resultsVersion : Z;
  isGenerating : bool;
  isJscadConverting : bool;
  currentConfigVersion : Z;
  (** the pending timer of the debounced [processInput]: milliseconds left
      and the arguments of the latest call *)
  timer : option (Z * Args);
  (** [Date.now()] *)
  now : Z;
  (** messages posted to the two workers, oldest first *)
  ergogenOut : list ErgogenRequest;
  jscadOut : list JscadWorkerRequest
}.

Definition setError (v : option string) (st : State) : State :=
  mkState v (deprecationWarning st) (results st) (resultsVersion st)
    (isGenerating st) (isJscadConverting st) (currentConfigVersion st)
    (timer st) (now st) (ergogenOut st) (jscadOut st).

Definition setDeprecationWarning (v : option string) (st : State) : State :=
  mkState (error st) v (results st) (resultsVersion st)
    (isGenerating st) (isJscadConverting st) (currentConfigVersion st)
    (timer st) (now st) (ergogenOut st) (jscadOut st).

Definition setResults (v : option Results) (st : State) : State :=
  mkState (error st) (deprecationWarning st) v (resultsVersion st)
    (isGenerating st) (isJscadConverting st) (currentConfigVersion st)
    (timer st) (now st) (ergogenOut st) (jscadOut st).

Definition setResultsVersion (f : Z -> Z) (st : State) : State :=
  mkState (error st) (deprecationWarning st) (results st) (f (resultsVersion st))
    (isGenerating st) (isJscadConverting st) (currentConfigVersion st)
    (timer st) (now st) (ergogenOut st) (jscadOut st).

Definition setIsGenerating (v : bool) (st : State) : State :=
  mkState (error st) (deprecationWarning st) (results st) (resultsVersion st)
    v (isJscadConverting st) (currentConfigVersion st)
    (timer st) (now st) (ergogenOut st) (jscadOut st).

Definition setIsJscadConverting (v : bool) (st : State) : State :=
  mkState (error st) (deprecationWarning st) (results st) (resultsVersion st)
    (isGenerating st) v (currentConfigVersion st)
    (timer st) (now st) (ergogenOut st) (jscadOut st).

(** [currentConfigVersion.current += 1]. *)
Definition bumpConfigVersion (st : State) : State :=
  mkState (error st) (deprecationWarning st) (results st) (resultsVersion st)
    (isGenerating st) (isJscadConverting st) (currentConfigVersion st + 1)
    (timer st) (now st) (ergogenOut st) (jscadOut st).

Definition setTimer (v : option (Z * Args)) (st : State) : State :=
  mkState (error st) (deprecationWarning st) (results st) (resultsVersion st)
    (isGenerating st) (isJscadConverting st) (currentConfigVersion st)
    v (now st) (ergogenOut st) (jscadOut st).

Definition advanceClock (d : Z) (st : State) : State :=
  mkState (error st) (deprecationWarning st) (results st) (resultsVersion st)
    (isGenerating st) (isJscadConverting st) (currentConfigVersion st)
    (timer st) (now st + d) (ergogenOut st) (jscadOut st).

(** [ergogenWorkerRef.current.postMessage(m)], when it returns. *)
Definition postErgogen (m : ErgogenRequest) (st : State) : State :=
  mkState (error st) (deprecationWarning st) (results st) (resultsVersion st)
    (isGenerating st) (isJscadConverting st) (currentConfigVersion st)
    (timer st) (now st) (ergogenOut st ++ [m]) (jscadOut st).

(** [jscadWorkerRef.current.postMessage(m)]. *)
Definition postJscad (m : JscadWorkerRequest) (st : State) : State :=
  mkState (error st) (deprecationWarning st) (results st) (resultsVersion st)
    (isGenerating st) (isJscadConverting st) (currentConfigVersion st)
    (timer st) (now st) (ergogenOut st) (jscadOut st ++ [m]).

(** ** The dispatch routine *)

(** The text of the KiCad 5 warning; it quotes [template: kicad8]. *)
Definition deprecationMessage : string :=
  "KiCad 5 is deprecated. Please add "
  +:+ String "034"%char "template: kicad8"
  +:+ String "034"%char " to your PCB definitions to avoid errors when opening PCB files with KiCad 8 or newer.".

(** ['\n'], and [parts.join(sep)]. *)
Definition newline : string := String "010"%char EmptyString.

Fixpoint join (sep : string) (parts : list string) : string :=
  match parts with
  | [] => ""
  | [p] => p
  | p :: rest => p +:+ sep +:+ join sep rest
  end.

(** [footprint && typeof footprint.what === 'string' &&
    footprint.what.startsWith('ceoloide')]. *)
Definition footprintMatches (footprint : Js.value) : bool :=
  Js.truthy footprint
  && Js.string_startsWith "ceoloide" (Js.get_opt footprint "what").

(** One turn of the loop over [pcbs]: whether this entry raises the
    warning; [None] when reading [pcb.template] throws. *)
Definition pcbMatches (pcb : Js.value) : option bool :=
  match Js.get pcb "template" with
  | None => None
  | Some template =>
      if negb (Js.truthy template) || Js.is_string "kicad5" template then
        let footprints := Js.get_opt pcb "footprints" in
        if Js.truthy footprints
        then Some (existsb footprintMatches (Js.values footprints))
        else Some false
      else Some false
  end.

(** The loop [for (const pcb of pcbs)], left at the first match. *)
Fixpoint scanPcbs (pcbs : list Js.value) : option bool :=
  match pcbs with
  | [] => Some false
  | pcb :: rest =>
      match pcbMatches pcb with
      | None => None
      | Some true => Some true
      | Some false => scanPcbs rest
      end
  end.

(** The check for deprecated KiCad 5 footprints: [Some true] when the
    warning is raised, [None] when the check throws. *)
Definition scanDeprecated (parsedConfig : Js.value) : option bool :=
  if Js.truthy parsedConfig && Js.truthy (Js.get_opt parsedConfig "pcbs")
  then scanPcbs (Js.values (Js.get_opt parsedConfig "pcbs"))
  else Some false.

(** The properties [{...parsedConfig}] copies.  Only reached when
    [parsedConfig.points] is truthy, that is for an object. *)
Definition spread (v : Js.value) : list (string * Js.value) :=
  match v with
  | Js.Obj fields => fields
  | _ => []
  end.

(** [{...parsedConfig, pcbs: undefined, cases: undefined}]. *)
Definition stripHeavy (parsedConfig : Js.value) : Js.value :=
  Js.Obj (Js.set_field "cases" Js.Undefined
            (Js.set_field "pcbs" Js.Undefined (spread parsedConfig))).

(** The [catch] block of [runGeneration]. *)
Definition catchPost (e : thrown) (st : State) : State :=
  let st := setIsGenerating false st in
  match e with
  | ThrownString s => if String.eqb s "" then st else setError (Some s) st
  | ThrownObject str => setError (Some str) st
  | ThrownOther _ => st
  end.

Definition text_nonempty (t : option string) : bool :=
  match t with
  | Some s => negb (String.eqb s "")
  | None => false
  end.

Section Coordinator.

(** [JSON.parse] and [yaml.load]; [None] when they throw. *)
Variable JSON_parse : string -> option Js.value.
Variable yaml_load : string -> option Js.value.
Variable env : Env.

Definition parseConfig (inputString : string) : string * Js.value :=
  let r :=
    match JSON_parse inputString with
    | Some v => ("json", v)
    | None => ("UNKNOWN", Js.Null)
    end in
  match yaml_load inputString with
  | Some v => ("yaml", v)
  | None => r
  end.

(** The request [runGeneration] builds for a snapshot: the text, or the
    stripped object when [points] is there and [pointsonly] is set. *)
Definition buildRequest (text : string) (a : Args) (st : State) : ErgogenRequest :=
  let parsedConfig := snd (parseConfig text) in
  let pointsOnly :=
    match options a with
    | Some o => pointsonly o
    | None => true
    end in
  let config :=
    if Js.truthy (Js.get_opt parsedConfig "points") && pointsOnly
    then stripHeavy parsedConfig
    else Js.Str text in
  mkErgogenRequest config (injections a)
    (currentConfigVersion st, now st) (debug env) true.

(** [runGeneration(textInput, injectionInput, options)]. *)
Definition runGeneration (a : Args) (st : State) : State :=
  match textInput a with
  | None => st
  | Some text =>
      if String.eqb text "" then st else
      let parsedConfig := snd (parseConfig text) in
      let st := setError None st in
      let st := setDeprecationWarning None st in
      let st := setIsGenerating true st in
      let st := bumpConfigVersion st in
      match scanDeprecated parsedConfig with
      | None => st (* a TypeError leaves the function here *)
      | Some warningFound =>
          let st :=
            if warningFound
            then setDeprecationWarning (Some deprecationMessage) st
            else st in
          match ergogenWorkerRef env with
          | Worker None => postErgogen (buildRequest text a st) st
          | Worker (Some e) => catchPost e st
          | NoWorker => st (* console.error only *)
          end
      end
  end.

(** [processInput = debounce(runGeneration, 300)], lodash's debounce with
    its default options: nothing runs on the leading edge, every call
    records its arguments and restarts the 300 ms wait, and when the wait
    runs out [runGeneration] is called once with the arguments recorded
    last.  One debounced function is modelled (a change of [debug] makes a
    new one), with an ideal timer. *)
Definition processInput (a : Args) (st : State) : State :=
  setTimer (Some (300, a)) st.

(** [processInput.cancel()]. *)
Definition cancel (st : State) : State := setTimer None st.

Definition generateNow (a : Args) (st : State) : State :=
  runGeneration a (cancel st).

(** [d] milliseconds pass without any call or message; the timer fires
    inside the interval when it is due. *)
Definition elapse (d : Z) (st : State) : State :=
  match timer st with
  | Some (r, a) =>
      if r <=? d
      then advanceClock (d - r) (runGeneration a (setTimer None (advanceClock r st)))
      else setTimer (Some (r - d, a)) (advanceClock d st)
  | None => advanceClock d st
  end.

(** [caseObj?.jscad] truthy: [newResults.cases[name].stl = undefined]. *)
Definition markPending (c : CaseOutput) : CaseOutput :=
  if field_truthy (jscad c) then mkCase (jscad c) Undef else c.

(** [stlPreview && newResults.cases &&
    Object.keys(newResults.cases).length > 0]. *)
Definition hasCases (r : Results) : bool :=
  match cases r with
  | Some cs => negb (bool_decide (cs = ∅))
  | None => false
  end.

Definition markAllPending (r : Results) : Results :=
  mkResults
    (match cases r with
     | Some cs => Some (markPending <$> cs)
     | None => None
     end)
    (others r).

(** [setDeprecationWarning(prev => (prev ? prev + '\n' : '') + joined)]. *)
Definition appendWarnings (warnings : list string) (prev : option string) : string :=
  (if text_nonempty prev then default "" prev +:+ newline else "")
  +:+ join newline warnings.

Definition handleErgogenWorkerMessage (response : ErgogenWorkerResponse)
    (st : State) : State :=
  match response with
  | ErgogenError message =>
      setIsJscadConverting false (setIsGenerating false (setError (Some message) st))
  | ErgogenSuccess res warnings =>
      let st :=
        match warnings with
        | [] => st
        | _ => setDeprecationWarning
                 (Some (appendWarnings warnings (deprecationWarning st))) st
        end in
      match res with
      | Some newResults =>
          let marking := stlPreview env && hasCases newResults in
          let newResults :=
            if marking then markAllPending newResults else newResults in
          let willConvertStl := marking && jscadWorkerRef env in
          let st :=
            if willConvertStl
            then postJscad (mkJscadRequest newResults (currentConfigVersion st))
                   (setIsJscadConverting true st)
            else st in
          let st := setResultsVersion (fun v => v + 1) (setResults (Some newResults) st) in
          if willConvertStl then st else setIsGenerating false st
      | None => setIsGenerating false st
      end
  | ErgogenOther => setIsGenerating false st
  end.

Definition handleJscadWorkerMessage (response : JscadWorkerResponse)
    (st : State) : State :=
  if negb (response_configVersion response =? currentConfigVersion st)
  then st
  else
    match response_type response, response_results response with
    | JscadError, _ =>
        setIsGenerating false (setIsJscadConverting false st)
    | JscadSuccess, Some r =>
        setIsGenerating false
          (setIsJscadConverting false
             (setResultsVersion (fun v => v + 1) (setResults (Some r) st)))
    | JscadSuccess, None => st
    end.

(** ** Runs of the coordinator

    Handlers and calls run one at a time; a run is the list of what
    happens, in order. *)
Inductive event :=
| CallProcessInput (a : Args)
| CallGenerateNow (a : Args)
| Elapse (d : Z)
| ErgogenMessage (response : ErgogenWorkerResponse)
| JscadMessage (response : JscadWorkerResponse).

Definition step (st : State) (e : event) : State :=
  match e with
  | CallProcessInput a => processInput a st
  | CallGenerateNow a => generateNow a st
  | Elapse d => elapse d st
  | ErgogenMessage response => handleErgogenWorkerMessage response st
  | JscadMessage response => handleJscadWorkerMessage response st
  end.

Definition run (evs : list event) (st : State) : State :=
  fold_left step evs st.


(** Whether a generation with these arguments gets its message out: the
    snapshot is non-empty, the deprecation check returns, and the worker is
    there and takes the message. *)
Definition posts (a : Args) : bool :=
  match textInput a with
  | Some text =>
      negb (String.eqb text "")
      && match scanDeprecated (snd (parseConfig text)), ergogenWorkerRef env with
         | Some _, Worker None => true
         | _, _ => false
         end
  | None => false
  end.

(** The calls of [runGeneration] an event makes in a state. *)
Definition invoked (st : State) (e : event) : list Args :=
  match e with
  | CallGenerateNow a => [a]
  | Elapse d =>
      match timer st with
      | Some (r, a) => if r <=? d then [a] else []
      | None => []
      end
  | _ => []
  end.

(** The calls of [runGeneration] made during a run, in order. *)
Fixpoint invocations (evs : list event) (st : State) : list Args :=
  match evs with
  | [] => []
  | e :: rest => invoked st e ++ invocations rest (step st e)
  end.

(** How many of the calls had a non-empty snapshot. *)
Definition generations (calls : list Args) : Z :=
  Z.of_nat (List.length (List.filter (fun a => text_nonempty (textInput a)) calls)).

(** Further debounced calls, each a gap after the one before it. *)
Fixpoint burst (later : list (Z * Args)) : list event :=
  match later with
  | [] => []
  | (gap, a) :: rest => Elapse gap :: CallProcessInput a :: burst rest
  end.

Fixpoint total_gap (later : list (Z * Args)) : Z :=
  match later with
  | [] => 0
  | (gap, _) :: rest => gap + total_gap rest
  end.

End Coordinator.

(** The fields a consumer of the context or a worker can see: everything
    but the clock and the debounce timer. *)
Definition observable (st : State) :=
  (currentConfigVersion st, isGenerating st, isJscadConverting st,
   error st, deprecationWarning st, results st, resultsVersion st,
   ergogenOut st, jscadOut st).

(** The state after the first four statements of a generation. *)
Definition started (st : State) : State :=
  bumpConfigVersion
    (setIsGenerating true (setDeprecationWarning None (setError None st))).

(** ** The deprecated pattern, as a shape of the parsed snapshot

    [pcbs.<board>.footprints.<name>.what] starts with [ceoloide], and
    [pcbs.<board>] sets no template or the template [kicad5]. *)

Definition isLegacyFootprint (footprint : Js.value) : bool :=
  match footprint with
  | Js.Obj fields => Js.string_startsWith "ceoloide" (Js.lookup_field "what" fields)
  | _ => false
  end.

Definition isLegacyPcb (pcb : Js.value) : bool :=
  match pcb with
  | Js.Obj fields =>
      match Js.lookup_field "template" fields with
      | Js.Undefined => true
      | template => Js.is_string "kicad5" template
      end
      && match Js.lookup_field "footprints" fields with
         | Js.Obj footprints => existsb isLegacyFootprint (map snd footprints)
         | _ => false
         end
  | _ => false
  end.

Definition hasLegacyPcb (parsedConfig : Js.value) : bool :=
  match parsedConfig with
  | Js.Obj fields =>
      match Js.lookup_field "pcbs" fields with
      | Js.Obj pcbs => existsb isLegacyPcb (map snd pcbs)
      | _ => false
      end
  | _ => false
  end.

(** ** Sample data for the examples *)

Module Sample.

Definition st0 : State :=
  mkState None None None 0 false false 0 None 0 [] [].

(** All settings on, both workers up. *)
Definition env_up : Env := mkEnv true false (Worker None) true.

(** The Ergogen worker was never created. *)
Definition env_no_ergogen : Env := mkEnv true false NoWorker true.

(** The JSCAD worker was never created. *)
Definition env_no_jscad : Env := mkEnv true false (Worker None) false.

(** A parser that knows a few documents and rejects every other text. *)
Definition parse_table (table : list (string * Js.value)) (s : string)
  : option Js.value :=
  snd <$> List.find (fun p => String.eqb s (fst p)) table.

Definition no_json (s : string) : option Js.value := None.

(** [points: {}] *)
Definition cfg_points : Js.value := Js.Obj [("points", Js.Obj [])].

(** A board with points and one PCB that sets no template and places a
    footprint of the [ceoloide] family. *)
Definition cfg_legacy : Js.value :=
  Js.Obj
    [("points", Js.Obj [("zones", Js.Obj [])]);
     ("pcbs",
      Js.Obj
        [("kb",
          Js.Obj
            [("footprints",
              Js.Obj
                [("x", Js.Obj [("what", Js.Str "ceoloide/switch_mx")])])])])].

(** [cfg_legacy] in YAML flow style. *)
Definition legacy_text : string :=
  "{points: {zones: {}}, pcbs: {kb: {footprints: {x: {what: ceoloide/switch_mx}}}}}".

(** What [yaml.load] gives for the two snapshots of the examples;
    [JSON.parse] throws on both. *)
Definition yaml : string -> option Js.value :=
  parse_table [("points: {}", cfg_points); (legacy_text, cfg_legacy)].

(** An edit with auto-generation of the points only, and a full
    generation. *)
Definition args (text : string) : Args :=
  mkArgs (Some text) None (Some (mkOptions true)).

Definition full (text : string) : Args :=
  mkArgs (Some text) None (Some (mkOptions false)).

(** One case that has geometry and no mesh yet; one that is converted. *)
Definition case_geometry : CaseOutput := mkCase (Text "solid()") Absent.
Definition case_pending : CaseOutput := mkCase (Text "solid()") Undef.
Definition case_meshed : CaseOutput := mkCase (Text "solid()") (Text "facets").
Definition case_mesh_only : CaseOutput := mkCase Absent (Text "facets").

Definition doc (cs : option (gmap string CaseOutput)) (points : string) : Results :=
  mkResults cs {[ "points" := Js.Str points ]}.

Definition doc_one : Results := doc (Some {[ "top" := case_geometry ]}) "one".
Definition doc_two : Results := doc (Some {[ "top" := case_geometry ]}) "two".
Definition doc_one_meshed : Results := doc (Some {[ "top" := case_meshed ]}) "one".

(** Two generations in a row; the Ergogen worker's answer to the first
    arrives when the second has been started. *)
Definition stale_primary : list event :=
  [CallGenerateNow (full legacy_text);
   CallGenerateNow (full "points: {}");
   ErgogenMessage (ErgogenSuccess (Some doc_one) [])].

(** Then the answer to the second arrives, and after it the JSCAD worker's
    answer to the first of its two requests. *)
Definition stale_overwrite : list event :=
  stale_primary
  ++ [ErgogenMessage (ErgogenSuccess (Some doc_two) []);
      JscadMessage (mkJscadResponse JscadSuccess 2 (Some doc_one_meshed))].

(** Two edits 100 ms apart, the second one emptying the editor, and then
    300 ms of quiet. *)
Definition burst_ending_empty : list event :=
  [CallProcessInput (args "points: {}");
   Elapse 100;
   CallProcessInput (args "");
   Elapse 300].

End Sample.

(** ** What the outboxes hold *)

(** The version stamps of the requests posted to the Ergogen worker,
    oldest first. *)
Definition primaryStamps (st : State) : list Z :=
  (fun m => fst (requestId m)) <$> ergogenOut st.

(** The stamps grow strictly along the outbox and none is ahead of the
    current version. *)
Definition stampsOrdered (st : State) : Prop :=
  StronglySorted Z.lt (primaryStamps st)
  /\ Forall (fun v => v <= currentConfigVersion st) (primaryStamps st).

(** No case of the document that has geometry carries a mesh. *)
Definition meshesPending (r : Results) : Prop :=
  forall cs name c,
    cases r = Some cs -> cs !! name = Some c ->
    field_truthy (jscad c) = true -> stl c = Undef.

(** Every conversion request is stamped with a version that has been
    reached, and its document has all its meshes pending. *)
Definition conversionsWellFormed (st : State) : Prop :=
  Forall (fun m => request_configVersion m <= currentConfigVersion st
                   /\ meshesPending (request_results m))
    (jscadOut st).

(** ** The provider's effects at mount and on edits *)

Module Provider.

(** What the provider is mounted with: its props, the [github] query
    parameter, the injections [useLocalStorage] holds and the two
    auto-generation settings. *)
Record Props := mkProps {
  configInput : option string;
  hashError : option string;
  githubUrl : option string;
  injectionInput : option (list (list string));
  autoGen : bool;
  autoGen3D : bool
}.

(** The state of the first render: every [useState] and [useRef] at its
    initial value, no timer armed, nothing posted. *)
Definition initialState (clock : Z) : State :=
  mkState None None None 0 false false 0 None clock [] [].

(** [clearError] and [clearWarning]. *)
Definition clearError (st : State) : State := setError None st.
Definition clearWarning (st : State) : State := setDeprecationWarning None st.

(** The effect on [hashError]: [if (hashError) setError(hashError)]. *)
Definition hashErrorEffect (p : Props) (st : State) : State :=
  if text_nonempty (hashError p) then setError (hashError p) st else st.

(** The calls the initial-load effect makes before it returns: none with
    a hash error, none with a [github] parameter (the fetch is only
    started), else an immediate full generation of a non-empty
    [configInput]. *)
Definition initialLoadCalls (p : Props) : list event :=
  if text_nonempty (hashError p) then []
  else if text_nonempty (githubUrl p) then []
  else if text_nonempty (configInput p)
       then [CallGenerateNow
               (mkArgs (configInput p) (injectionInput p) (Some (mkOptions false)))]
       else [].

(** The effect on [configInput], [injectionInput] and the two settings:
    with [autoGen] on, a debounced generation with
    [pointsonly: !autoGen3D]. *)
Definition autoGenCalls (p : Props) : list event :=
  if autoGen p
  then [CallProcessInput
          (mkArgs (configInput p) (injectionInput p)
                  (Some (mkOptions (negb (autoGen3D p)))))]
  else [].

(** The calls of the effects of the first render, in the order the
    effects are declared. *)
Definition mountCalls (p : Props) : list event :=
  initialLoadCalls p ++ autoGenCalls p.

End Provider.

(** ** Settings in local storage *)

Module Persist.

Record Settings := mkSettings {
  debug : bool;
  autoGen : bool;
  autoGen3D : bool;
  kicanvasPreview : bool;
  stlPreview : bool
}.

(** [JSON.stringify] of a boolean. *)
Definition stringify (b : bool) : string := if b then "true" else "false".

(** [localStorageOrDefault(key, defaultValue)]: the default when the key
    is missing or holds the empty string, else [JSON.parse] of what is
    stored; [None] when that throws. *)
Definition localStorageOrDefault (JSON_parse : string -> option Js.value)
    (localStorage : gmap string string) (key : string) (defaultValue : Js.value)
  : option Js.value :=
  match localStorage !! key with
  | Some storedValue =>
      if String.eqb storedValue "" then Some defaultValue else JSON_parse storedValue
  | None => Some defaultValue
  end.

(** The effect that saves the settings. *)
Definition saveSettings (s : Settings) (localStorage : gmap string string)
  : gmap string string :=
  <["ergogen:config:stlPreview" := stringify (stlPreview s)]>
    (<["ergogen:config:kicanvasPreview" := stringify (kicanvasPreview s)]>
       (<["ergogen:config:autoGen3D" := stringify (autoGen3D s)]>
          (<["ergogen:config:autoGen" := stringify (autoGen s)]>
             (<["ergogen:config:debug" := stringify (debug s)]> localStorage)))).

(** The initial values of the five [useState] calls, in the order of
    [Settings]. *)
Definition loadSettings (JSON_parse : string -> option Js.value)
    (localStorage : gmap string string) : list (option Js.value) :=
  [localStorageOrDefault JSON_parse localStorage "ergogen:config:debug" (Js.Bool false);
   localStorageOrDefault JSON_parse localStorage "ergogen:config:autoGen" (Js.Bool true);
   localStorageOrDefault JSON_parse localStorage "ergogen:config:autoGen3D" (Js.Bool true);
   localStorageOrDefault JSON_parse localStorage "ergogen:config:kicanvasPreview" (Js.Bool true);
   localStorageOrDefault JSON_parse localStorage "ergogen:config:stlPreview" (Js.Bool true)].

End Persist.

(** ** Footprints: [createFootprint] and the footprint manager *)

Module Editor.

(** [interface Footprint]; the key is the index of the injection, [-1] for
    none. *)
Record Footprint := mkFootprint {
  key : Z;
  type : string;
  name : string;
  content : string
}.

Inductive Tab := ConfigTab | FootprintsTab.

Record Ui := mkUi {
  injectionInput : option (list (list string));
  footprintToEdit : Footprint;
  activeEditorTab : Tab;
  showSettings : bool
}.

Definition emptyFootprint : Footprint := mkFootprint (-1) "" "" "".

(** The body a new footprint starts with. *)
Definition footprintTemplate : string :=
  "module.exports = {" +:+ newline
  +:+ "  params: {" +:+ newline
  +:+ "    designator: ''," +:+ newline
  +:+ "  }," +:+ newline
  +:+ "  body: p => ``" +:+ newline
  +:+ "}".

Definition setInjectionInput (v : option (list (list string))) (ui : Ui) : Ui :=
  mkUi v (footprintToEdit ui) (activeEditorTab ui) (showSettings ui).

Definition setFootprintToEdit (v : Footprint) (ui : Ui) : Ui :=
  mkUi (injectionInput ui) v (activeEditorTab ui) (showSettings ui).

Definition setKey (k : Z) (f : Footprint) : Footprint :=
  mkFootprint k (type f) (name f) (content f).

(** [createFootprint(name)] of the provider. *)
Definition createFootprint (given : option string) (ui : Ui) : Ui :=
  let nextKey :=
    match injectionInput ui with
    | Some l => Z.of_nat (List.length l)
    | None => 0
    end in
  let footprintName :=
    if text_nonempty given then default "" given
    else "custom_footprint_" +:+ pretty (nextKey + 1) in
  mkUi (injectionInput ui)
    (mkFootprint nextKey "footprint" footprintName footprintTemplate)
    FootprintsTab false.

(** [l[k]] for a number [k]. *)
Definition at_index {A : Type} (l : list A) (k : Z) : option A :=
  if k <? 0 then None else l !! Z.to_nat k.

(** The loop that lists the footprints among the injections. *)
Definition asFootprint (i : Z) (injection : list string) : option Footprint :=
  match injection with
  | [t; n; c] =>
      if String.eqb t "footprint" then Some (mkFootprint i t n c) else None
  | _ => None
  end.

Fixpoint collectFootprints (i : Z) (l : list (list string)) : list Footprint :=
  match l with
  | [] => []
  | injection :: rest =>
      match asFootprint i injection with
      | Some f => f :: collectFootprints (i + 1) rest
      | None => collectFootprints (i + 1) rest
      end
  end.

Definition footprints (ui : Ui) : list Footprint :=
  match injectionInput ui with
  | Some l => collectFootprints 0 l
  | None => []
  end.

(** [l.filter((_, i) => keep i)] and [l.map((x, i) => f x i)], from index
    [i] on. *)
Fixpoint filterIndexed {A : Type} (keep : Z -> bool) (i : Z) (l : list A) : list A :=
  match l with
  | [] => []
  | x :: rest =>
      if keep i then x :: filterIndexed keep (i + 1) rest
      else filterIndexed keep (i + 1) rest
  end.

Fixpoint mapIndexed {A B : Type} (f : A -> Z -> B) (i : Z) (l : list A) : list B :=
  match l with
  | [] => []
  | x :: rest => f x i :: mapIndexed f (i + 1) rest
  end.

(** [handleDeleteFootprint(footprint)]. *)
Definition handleDeleteFootprint (footprint : Footprint) (ui : Ui) : Ui :=
  match injectionInput ui with
  | None => ui
  | Some l =>
      let newInjections :=
        filterIndexed (fun i => negb (i =? key footprint)) 0 l in
      let ui' := setInjectionInput (Some newInjections) ui in
      let selected := footprintToEdit ui in
      if key selected =? key footprint then setFootprintToEdit emptyFootprint ui'
      else if key footprint <? key selected
           then setFootprintToEdit (setKey (key selected - 1) selected) ui'
           else ui'
  end.

(** [handleNameChange] and [handleCodeChange]. *)
Definition handleNameChange (value : string) (ui : Ui) : Ui :=
  let f := footprintToEdit ui in
  setFootprintToEdit (mkFootprint (key f) (type f) value (content f)) ui.

Definition handleCodeChange (value : option string) (ui : Ui) : Ui :=
  match value with
  | None => ui
  | Some v =>
      let f := footprintToEdit ui in
      setFootprintToEdit (mkFootprint (key f) (type f) (name f) v) ui
  end.

(** The effect that saves the footprint being edited into the
    injections. *)
Definition autoSave (ui : Ui) : Ui :=
  let f := footprintToEdit ui in
  if key f =? -1 then ui
  else if String.eqb (name f) "" then ui
  else if String.eqb (content f) "" then ui
  else
    let editedInjection := [type f; name f; content f] in
    let injections := default [] (injectionInput ui) in
    let nextIndex := Z.of_nat (List.length injections) in
    if (nextIndex =? 0) || (nextIndex =? key f) then
      setInjectionInput (Some (injections ++ [editedInjection])%list)
        (setFootprintToEdit (setKey nextIndex f) ui)
    else
      let unchanged :=
        match at_index injections (key f) with
        | Some existing =>
            bool_decide (existing !! 0%nat = Some (type f))
            && bool_decide (existing !! 1%nat = Some (name f))
            && bool_decide (existing !! 2%nat = Some (content f))
        | None => false
        end in
      if unchanged then ui
      else
        setInjectionInput
          (Some (mapIndexed
                   (fun existing i => if i =? key f then editedInjection else existing)
                   0 injections))
          ui.

End Editor.

(** ** More sample data *)

Module Sample2.

(** A parser for the two boolean literals; it throws on every other
    text. *)
Definition json_literals (s : string) : option Js.value :=
  if String.eqb s "true" then Some (Js.Bool true)
  else if String.eqb s "false" then Some (Js.Bool false)
  else None.

(** The first board under [pcbs] has no body. *)
Definition cfg_null_pcb : Js.value :=
  Js.Obj
    [("points", Js.Obj []);
     ("pcbs", Js.Obj [("empty", Js.Null); ("kb", Js.Obj [])])].

Definition null_pcb_text : string := "{points: {}, pcbs: {empty: null, kb: {}}}".

Definition yaml : string -> option Js.value :=
  Sample.parse_table
    [("points: {}", Sample.cfg_points);
     (Sample.legacy_text, Sample.cfg_legacy);
     (null_pcb_text, cfg_null_pcb)].

(** A page load with a stored configuration, and one with a broken
    share link. *)
Definition props_plain : Provider.Props :=
  Provider.mkProps (Some "points: {}") None None None true false.

Definition props_hash_error : Provider.Props :=
  Provider.mkProps (Some "points: {}") (Some "Invalid share link") None None true true.

Definition two_injections : list (list string) :=
  [["footprint"; "diode"; "module.exports = {}"];
   ["template"; "kicad8"; "module.exports = {}"]].

Definition ui0 : Editor.Ui :=
  Editor.mkUi (Some two_injections) Editor.emptyFootprint Editor.ConfigTab true.

End Sample2.

(** * Properties *)


(** ** Mesh conversion responses *)

(** A conversion response stamped with another version than the current
    one changes nothing. *)
Lemma jscad_stale_discarded (response : JscadWorkerResponse) (st : State) :
  response_configVersion response <> currentConfigVersion st ->
  handleJscadWorkerMessage response st = st.
Proof.
  intros Hne. unfold handleJscadWorkerMessage.
  destruct (Z.eqb_spec (response_configVersion response) (currentConfigVersion st));
    [contradiction | reflexivity].
Qed.

Lemma jscad_accepted (response : JscadWorkerResponse) (st : State) :
  response_configVersion response = currentConfigVersion st ->
  handleJscadWorkerMessage response st =
    match response_type response, response_results response with
    | JscadError, _ => setIsGenerating false (setIsJscadConverting false st)
    | JscadSuccess, Some r =>
        setIsGenerating false
          (setIsJscadConverting false
             (setResultsVersion (fun v => v + 1) (setResults (Some r) st)))
    | JscadSuccess, None => st
    end.
Proof.
  intros Heq. unfold handleJscadWorkerMessage.
  rewrite Heq, Z.eqb_refl. reflexivity.
Qed.

(** C8: an accepted conversion error clears both busy flags and leaves the
    stored results, the results version and the error text as they were;
    the warning text and the outboxes are untouched too. *)
Theorem secondary_error_keeps_results (response : JscadWorkerResponse) (st : State) :
  response_configVersion response = currentConfigVersion st ->
  response_type response = JscadError ->
  let st' := handleJscadWorkerMessage response st in
  isGenerating st' = false /\ isJscadConverting st' = false
  /\ results st' = results st /\ resultsVersion st' = resultsVersion st
  /\ error st' = error st /\ deprecationWarning st' = deprecationWarning st
  /\ currentConfigVersion st' = currentConfigVersion st
  /\ ergogenOut st' = ergogenOut st /\ jscadOut st' = jscadOut st.
Proof.
  intros Hv Ht st'. subst st'.
  rewrite (jscad_accepted _ _ Hv), Ht. cbn. repeat split.
Qed.

(** The stored document keeps its pending meshes when version 3's
    conversion fails. *)
Lemma secondary_error_keeps_results_witness :
  let st :=
    mkState None None (Some (Sample.doc (Some {[ "top" := Sample.case_pending ]}) "p"))
      4 true true 3 None 0 [] [] in
  let st' := handleJscadWorkerMessage (mkJscadResponse JscadError 3 None) st in
  isGenerating st' = false /\ isJscadConverting st' = false
  /\ results st' = results st /\ resultsVersion st' = 4
  /\ error st' = None.
Proof.
  intros st st'.
  destruct (secondary_error_keeps_results (mkJscadResponse JscadError 3 None) st
              eq_refl eq_refl) as (Hg & Hc & Hr & Hrv & He & _).
  repeat split; assumption.
Defined.

(** C2, as the code has it: an accepted conversion success that carries a
    document stores that document in place of the current one, whatever
    the two hold; the results version goes up by one and both busy flags
    are cleared. *)
Theorem secondary_success_replaces_results
    (response : JscadWorkerResponse) (r : Results) (st : State) :
  response_configVersion response = currentConfigVersion st ->
  response_type response = JscadSuccess ->
  response_results response = Some r ->
  let st' := handleJscadWorkerMessage response st in
  results st' = Some r
  /\ resultsVersion st' = resultsVersion st + 1
  /\ isGenerating st' = false /\ isJscadConverting st' = false
  /\ error st' = error st /\ deprecationWarning st' = deprecationWarning st
  /\ currentConfigVersion st' = currentConfigVersion st
  /\ ergogenOut st' = ergogenOut st /\ jscadOut st' = jscadOut st.
Proof.
  intros Hv Ht Hr st'. subst st'.
  rewrite (jscad_accepted _ _ Hv), Ht, Hr. cbn. repeat split.
Qed.

Lemma secondary_success_replaces_results_witness :
  let st :=
    mkState None None (Some (Sample.doc (Some {[ "top" := Sample.case_pending ]}) "p"))
      4 true true 3 None 0 [] [] in
  let r := Sample.doc (Some {[ "top" := Sample.case_meshed ]}) "p" in
  let st' := handleJscadWorkerMessage (mkJscadResponse JscadSuccess 3 (Some r)) st in
  results st' = Some r /\ resultsVersion st' = 5
  /\ isGenerating st' = false /\ isJscadConverting st' = false.
Proof.
  intros st r st'.
  destruct (secondary_success_replaces_results
              (mkJscadResponse JscadSuccess 3 (Some r)) r st
              eq_refl eq_refl eq_refl) as (Hr & Hrv & Hg & Hc & _).
  repeat split; assumption.
Defined.

(** C2, as stated, fails: the stored document has a [points] category and
    a pending case; the accepted conversion response carries the case with
    its mesh and no [points].  Afterwards [points] is gone from the store:
    the document was replaced, not merged. *)
Lemma secondary_success_drops_other_categories :
  let stored := Sample.doc (Some {[ "top" := Sample.case_pending ]}) "p" in
  let incoming := mkResults (Some {[ "top" := Sample.case_meshed ]}) ∅ in
  let st := mkState None None (Some stored) 4 true true 3 None 0 [] [] in
  let st' := handleJscadWorkerMessage (mkJscadResponse JscadSuccess 3 (Some incoming)) st in
  others stored !! "points" = Some (Js.Str "p")
  /\ (others <$> results st') = Some ∅
  /\ (others <$> results st') <> (others <$> results st).
Proof.
  intros stored incoming st st'.
  split; [vm_compute; reflexivity | split; [reflexivity |]].
  intros H.
  apply (f_equal (fun o : option (gmap string Js.value) =>
                    match o with Some m => m !! "points" | None => None end)) in H.
  vm_compute in H. discriminate.
Qed.

(** ** Ergogen worker responses *)

(** C7: after an error response of the Ergogen worker the error text is the
    response's message, both busy flags are off, and the handler has posted
    nothing to either worker nor touched the results. *)
Theorem primary_error_sets_error_and_stops
    (env : Env) (message : string) (st : State) :
  let st' := handleErgogenWorkerMessage env (ErgogenError message) st in
  error st' = Some message
  /\ isGenerating st' = false /\ isJscadConverting st' = false
  /\ jscadOut st' = jscadOut st /\ ergogenOut st' = ergogenOut st
  /\ results st' = results st /\ resultsVersion st' = resultsVersion st
  /\ currentConfigVersion st' = currentConfigVersion st.
Proof. cbn. repeat split. Qed.

Lemma markPending_geometry (c : CaseOutput) :
  field_truthy (jscad c) = true ->
  markPending c = mkCase (jscad c) Undef.
Proof. intros H. unfold markPending. now rewrite H. Qed.

Lemma markPending_no_geometry (c : CaseOutput) :
  field_truthy (jscad c) = false -> markPending c = c.
Proof. intros H. unfold markPending. now rewrite H. Qed.

(** Every case of the marked document is the marked case of the original,
    and the other categories are the original's. *)
Lemma markAllPending_lookup (r : Results) (cs : gmap string CaseOutput) (name : string) :
  cases r = Some cs ->
  exists cs', cases (markAllPending r) = Some cs'
              /\ cs' !! name = markPending <$> (cs !! name).
Proof.
  intros H. exists (markPending <$> cs). unfold markAllPending. cbn.
  rewrite H. split; [reflexivity | apply lookup_fmap].
Qed.

Lemma markAllPending_others (r : Results) :
  others (markAllPending r) = others r.
Proof. reflexivity. Qed.

(** A success response without a document, or a response of another type,
    only clears [isGenerating] (after recording the warnings). *)
Lemma primary_success_without_results (env : Env) (st : State) :
  handleErgogenWorkerMessage env (ErgogenSuccess None []) st = setIsGenerating false st
  /\ handleErgogenWorkerMessage env ErgogenOther st = setIsGenerating false st.
Proof. split; reflexivity. Qed.

(** C6, as the code has it.  A success response with a document [r]
    always stores a document and increments the results version.  With
    the STL preview on and at least one case in [r], the stored document
    is [r] with [stl] overwritten by [undefined] in every case whose
    [jscad] is a non-empty string; if moreover the JSCAD worker exists,
    [isGenerating] is left as it was, [isJscadConverting] is set and
    exactly one conversion request, carrying that document and the current
    config version, is posted.  In every other case [isGenerating] is
    cleared and nothing is posted. *)
Theorem primary_success_conversion
    (env : Env) (r : Results) (warnings : list string) (st : State) :
  let st' := handleErgogenWorkerMessage env (ErgogenSuccess (Some r) warnings) st in
  resultsVersion st' = resultsVersion st + 1
  /\ (stlPreview env = true -> hasCases r = true ->
      results st' = Some (markAllPending r)
      /\ (forall cs name c, cases r = Some cs -> cs !! name = Some c ->
            exists cs', cases (markAllPending r) = Some cs'
              /\ cs' !! name =
                   Some (if field_truthy (jscad c) then mkCase (jscad c) Undef else c))
      /\ (jscadWorkerRef env = true ->
            isGenerating st' = isGenerating st
            /\ isJscadConverting st' = true
            /\ jscadOut st' =
                 (jscadOut st ++ [mkJscadRequest (markAllPending r) (currentConfigVersion st)])%list)
      /\ (jscadWorkerRef env = false ->
            isGenerating st' = false
            /\ isJscadConverting st' = isJscadConverting st
            /\ jscadOut st' = jscadOut st))
  /\ (stlPreview env && hasCases r = false ->
      results st' = Some r
      /\ isGenerating st' = false
      /\ isJscadConverting st' = isJscadConverting st
      /\ jscadOut st' = jscadOut st).
Proof.
  intros st'. subst st'. unfold handleErgogenWorkerMessage.
  split; [| split].
  - destruct warnings, (stlPreview env && hasCases r), (jscadWorkerRef env);
      reflexivity.
  - intros Hp Hc. rewrite Hp, Hc. cbn [andb].
    split; [| split; [| split]].
    + destruct warnings, (jscadWorkerRef env); reflexivity.
    + intros cs name c Hcs Hl.
      destruct (markAllPending_lookup r cs name Hcs) as (cs' & H1 & H2).
      exists cs'. split; [exact H1 |].
      rewrite H2, Hl. reflexivity.
    + intros Hw. rewrite Hw. destruct warnings; repeat split.
    + intros Hw. rewrite Hw. destruct warnings; repeat split.
  - intros Hn. rewrite Hn. cbn [andb]. destruct warnings; repeat split.
Qed.

(** One case with geometry and no mesh, preview on, JSCAD worker up: the
    mesh reads pending, [isGenerating] stays on, one request goes out. *)
Lemma primary_success_conversion_witness :
  let r := Sample.doc (Some {[ "top" := Sample.case_geometry ]}) "p" in
  let st := mkState None None None 0 true false 1 None 0 [] [] in
  let st' := handleErgogenWorkerMessage Sample.env_up (ErgogenSuccess (Some r) []) st in
  results st' = Some (markAllPending r)
  /\ isGenerating st' = true /\ isJscadConverting st' = true
  /\ jscadOut st' = [mkJscadRequest (markAllPending r) 1]
  /\ resultsVersion st' = 1.
Proof.
  intros r st st'.
  destruct (primary_success_conversion Sample.env_up r [] st) as (Hv & Hmark & _).
  destruct (Hmark eq_refl eq_refl) as (Hr & _ & Hup & _).
  destruct (Hup eq_refl) as (Hg & Hc & Ho).
  repeat split; assumption.
Defined.

(** C6, as stated, fails in both directions.  First: preview on, a case
    with geometry and no mesh, but no JSCAD worker; [isGenerating] is
    cleared and no request is posted.  Second: preview on, JSCAD worker
    up, and the only case has a mesh and no geometry, so no case has
    geometry without a mesh; yet [isGenerating] stays on and a request is
    posted. *)
Lemma primary_success_conversion_counterexample :
  let st := mkState None None None 0 true false 1 None 0 [] [] in
  (let r := Sample.doc (Some {[ "top" := Sample.case_geometry ]}) "p" in
   let st' := handleErgogenWorkerMessage Sample.env_no_jscad (ErgogenSuccess (Some r) []) st in
   stlPreview Sample.env_no_jscad = true
   /\ field_truthy (jscad Sample.case_geometry) = true
   /\ read (stl Sample.case_geometry) = None
   /\ isGenerating st' = false /\ jscadOut st' = [])
  /\
  (let r := Sample.doc (Some {[ "top" := Sample.case_mesh_only ]}) "p" in
   let st' := handleErgogenWorkerMessage Sample.env_up (ErgogenSuccess (Some r) []) st in
   field_truthy (jscad Sample.case_mesh_only) = false
   /\ isGenerating st' = true /\ jscadOut st' = [mkJscadRequest r 1]).
Proof. cbv zeta. split; repeat split; vm_compute; reflexivity. Qed.

(** ** The dispatch routine *)

Section Dispatch.

Variables JSON_parse yaml_load : string -> option Js.value.
Variable env : Env.

Local Abbreviation parsed text := (snd (parseConfig JSON_parse yaml_load text)).
Local Abbreviation runGen := (runGeneration JSON_parse yaml_load env).
Local Abbreviation request := (buildRequest JSON_parse yaml_load env).
Local Abbreviation posts := (posts JSON_parse yaml_load env).

Lemma text_nonempty_spec (t : option string) :
  text_nonempty t = false <-> t = None \/ t = Some "".
Proof.
  destruct t as [s |]; cbn.
  - destruct (String.eqb_spec s ""); cbn; split; intros H; try subst; auto.
    + discriminate.
    + destruct H as [H | H]; [discriminate | congruence].
  - tauto.
Qed.

Lemma runGeneration_empty (a : Args) (st : State) :
  text_nonempty (textInput a) = false -> runGen a st = st.
Proof.
  unfold runGeneration, text_nonempty. destruct (textInput a) as [s |]; [| reflexivity].
  destruct (String.eqb s ""); [reflexivity | discriminate].
Qed.

(** What a generation on a non-empty snapshot does after its first four
    statements. *)
Lemma runGeneration_nonempty (a : Args) (text : string) (st : State) :
  textInput a = Some text -> text <> "" ->
  runGen a st =
    match scanDeprecated (parsed text) with
    | None => started st
    | Some warningFound =>
        let st1 :=
          if warningFound
          then setDeprecationWarning (Some deprecationMessage) (started st)
          else started st in
        match ergogenWorkerRef env with
        | Worker None => postErgogen (request text a st1) st1
        | Worker (Some e) => catchPost e st1
        | NoWorker => st1
        end
    end.
Proof.
  intros Ht Hne. unfold runGeneration. rewrite Ht.
  destruct (String.eqb_spec text ""); [contradiction | reflexivity].
Qed.

Lemma text_nonempty_inv (a : Args) :
  text_nonempty (textInput a) = true ->
  exists text, textInput a = Some text /\ text <> "".
Proof.
  unfold text_nonempty. destruct (textInput a) as [s |]; [| discriminate].
  destruct (String.eqb_spec s ""); [discriminate |]. eauto.
Qed.

(** The version goes up by exactly one in a generation on a non-empty
    snapshot, wherever the routine is left. *)
Lemma runGeneration_version (a : Args) (st : State) :
  currentConfigVersion (runGen a st) =
    currentConfigVersion st + (if text_nonempty (textInput a) then 1 else 0).
Proof.
  destruct (text_nonempty (textInput a)) eqn:Hne.
  - destruct (text_nonempty_inv a Hne) as (text & Ht & Hn).
    rewrite (runGeneration_nonempty a text st Ht Hn).
    destruct (scanDeprecated (parsed text)) as [[|] |];
      destruct (ergogenWorkerRef env) as [| [[s | s | b] |]];
      cbn; try reflexivity;
      destruct (String.eqb s ""); reflexivity.
  - rewrite (runGeneration_empty a st Hne). lia.
Qed.

(** A generation posts at most one message, stamped with the new
    version. *)
Lemma runGeneration_ergogenOut (a : Args) (st : State) :
  ergogenOut (runGen a st) =
    if posts a
    then (ergogenOut st
            ++ [request (default "" (textInput a)) a (bumpConfigVersion st)])%list
    else ergogenOut st.
Proof.
  unfold posts. destruct (textInput a) as [text |] eqn:Ht.
  - destruct (String.eqb_spec text "") as [-> | Hn]; cbn [negb andb].
    + rewrite runGeneration_empty; [reflexivity |]. now rewrite Ht.
    + rewrite (runGeneration_nonempty a text st Ht Hn).
      destruct (scanDeprecated (parsed text)) as [[|] |];
        destruct (ergogenWorkerRef env) as [| [[s | s | b] |]];
        cbn; try reflexivity;
        destruct (String.eqb s ""); reflexivity.
  - rewrite runGeneration_empty; [reflexivity |]. now rewrite Ht.
Qed.

Lemma runGeneration_jscadOut (a : Args) (st : State) :
  jscadOut (runGen a st) = jscadOut st.
Proof.
  destruct (text_nonempty (textInput a)) eqn:Hne.
  - destruct (text_nonempty_inv a Hne) as (text & Ht & Hn).
    rewrite (runGeneration_nonempty a text st Ht Hn).
    destruct (scanDeprecated (parsed text)) as [[|] |];
      destruct (ergogenWorkerRef env) as [| [[s | s | b] |]];
      cbn; try reflexivity;
      destruct (String.eqb s ""); reflexivity.
  - now rewrite (runGeneration_empty a st Hne).
Qed.

(** With no Ergogen worker a generation on a non-empty snapshot whose
    deprecation check returns leaves [isGenerating] on, the error empty and
    the outbox as it was. *)
Lemma runGeneration_no_worker (a : Args) (text : string) (st : State) :
  textInput a = Some text -> text <> "" ->
  scanDeprecated (parsed text) <> None ->
  ergogenWorkerRef env = NoWorker ->
  isGenerating (runGen a st) = true
  /\ error (runGen a st) = None
  /\ ergogenOut (runGen a st) = ergogenOut st.
Proof.
  intros Ht Hn Hs Hw. rewrite (runGeneration_nonempty a text st Ht Hn), Hw.
  destruct (scanDeprecated (parsed text)) as [[|] |];
    [ | | contradiction ]; repeat split.
Qed.

(** When [postMessage] throws an object or a non-empty string, the [catch]
    block clears [isGenerating] and shows the thrown text as the error;
    nothing is posted and nothing is sent again. *)
Lemma runGeneration_post_throws (a : Args) (text msg : string) (e : thrown) (st : State) :
  textInput a = Some text -> text <> "" ->
  scanDeprecated (parsed text) <> None ->
  ergogenWorkerRef env = Worker (Some e) ->
  e = ThrownObject msg \/ (e = ThrownString msg /\ msg <> "") ->
  isGenerating (runGen a st) = false
  /\ error (runGen a st) = Some msg
  /\ ergogenOut (runGen a st) = ergogenOut st.
Proof.
  intros Ht Hn Hs Hw He. rewrite (runGeneration_nonempty a text st Ht Hn), Hw.
  destruct (scanDeprecated (parsed text)) as [[|] |]; [ | | contradiction ];
    destruct He as [-> | [-> Hm]]; cbn;
    try (destruct (String.eqb_spec msg ""); [contradiction |]);
    repeat split.
Qed.

End Dispatch.

(** C3, on the code: the Ergogen worker ref is [null] and a generation is
    started on [points: {}].  The routine returns with [isGenerating] still
    on, no error shown and nothing posted. *)
Lemma dispatch_without_worker_stays_busy :
  let st' :=
    runGeneration Sample.no_json Sample.yaml Sample.env_no_ergogen
      (Sample.args "points: {}") Sample.st0 in
  ergogenWorkerRef Sample.env_no_ergogen = NoWorker
  /\ isGenerating st' = true /\ error st' = None /\ ergogenOut st' = [].
Proof. cbv zeta. repeat split. Qed.

(** The sibling path: the worker is there and its [postMessage] throws. *)
Lemma dispatch_throwing_worker_clears_busy :
  let env := mkEnv true false (Worker (Some (ThrownObject "DataCloneError"))) true in
  let st' :=
    runGeneration Sample.no_json Sample.yaml env (Sample.args "points: {}") Sample.st0 in
  isGenerating st' = false /\ error st' = Some "DataCloneError" /\ ergogenOut st' = [].
Proof. cbv zeta. repeat split. Qed.

(** ** Runs: the version counter *)

Section Runs.

Variables JSON_parse yaml_load : string -> option Js.value.
Variable env : Env.

Local Abbreviation runGen := (runGeneration JSON_parse yaml_load env).
Local Abbreviation step' := (step JSON_parse yaml_load env).
Local Abbreviation run' := (run JSON_parse yaml_load env).
Local Abbreviation invocations := (invocations JSON_parse yaml_load env).

Lemma generations_app (l1 l2 : list Args) :
  generations (l1 ++ l2) = generations l1 + generations l2.
Proof.
  unfold generations. rewrite List.filter_app, List.length_app. lia.
Qed.

Lemma generations_one (a : Args) :
  generations [a] = if text_nonempty (textInput a) then 1 else 0.
Proof. unfold generations. cbn. now destruct (text_nonempty (textInput a)). Qed.

Lemma handleErgogen_version (response : ErgogenWorkerResponse) (st : State) :
  currentConfigVersion (handleErgogenWorkerMessage env response st)
  = currentConfigVersion st.
Proof.
  destruct response as [m | [r |] ws |]; cbn; try reflexivity;
    destruct ws; cbn; try reflexivity;
    destruct (stlPreview env && hasCases r && jscadWorkerRef env); reflexivity.
Qed.

Lemma handleJscad_version (response : JscadWorkerResponse) (st : State) :
  currentConfigVersion (handleJscadWorkerMessage response st)
  = currentConfigVersion st.
Proof.
  unfold handleJscadWorkerMessage.
  destruct (negb _); [reflexivity |].
  destruct (response_type response), (response_results response); reflexivity.
Qed.

Lemma step_version (st : State) (e : event) :
  currentConfigVersion (step' st e)
  = currentConfigVersion st + generations (invoked st e).
Proof.
  destruct e as [a | a | d | response | response]; cbn [step invoked].
  - unfold generations. cbn. lia.
  - unfold generateNow. rewrite runGeneration_version, generations_one. reflexivity.
  - unfold elapse. destruct (timer st) as [[r a] |].
    + destruct (r <=? d).
      * cbn [advanceClock currentConfigVersion].
        rewrite runGeneration_version, generations_one. reflexivity.
      * unfold generations. cbn. lia.
    + unfold generations. cbn. lia.
  - rewrite handleErgogen_version. unfold generations. cbn. lia.
  - rewrite handleJscad_version. unfold generations. cbn. lia.
Qed.

Lemma run_cons (e : event) (evs : list event) (st : State) :
  run' (e :: evs) st = run' evs (step' st e).
Proof. reflexivity. Qed.

Lemma run_app (evs1 evs2 : list event) (st : State) :
  run' (evs1 ++ evs2) st = run' evs2 (run' evs1 st).
Proof. unfold run. apply List.fold_left_app. Qed.

Lemma run_version (evs : list event) (st : State) :
  currentConfigVersion (run' evs st)
  = currentConfigVersion st + generations (invocations evs st).
Proof.
  revert st. induction evs as [| e evs IH]; intros st.
  - cbn. unfold generations. cbn. lia.
  - rewrite run_cons, IH, step_version. cbn [invocations].
    rewrite generations_app. lia.
Qed.

Lemma generations_nonneg (calls : list Args) : 0 <= generations calls.
Proof. unfold generations. lia. Qed.

(** The version never goes down. *)
Lemma run_version_monotone (evs : list event) (st : State) :
  currentConfigVersion st <= currentConfigVersion (run' evs st).
Proof.
  rewrite run_version. pose proof (generations_nonneg (invocations evs st)). lia.
Qed.

(** C4, as the code has it: over any run, the version counter grows by
    the number of calls of the generation routine with a non-empty
    snapshot, one for each, whether or not the call then posts its message;
    it never decreases, a debounced call by itself leaves it alone, and so
    do a timer that is cancelled or not yet due, a generation on an empty
    snapshot and both message handlers. *)
Theorem version_counts_generations (evs : list event) (st : State) :
  currentConfigVersion (run' evs st)
    = currentConfigVersion st + generations (invocations evs st)
  /\ currentConfigVersion st <= currentConfigVersion (run' evs st)
  /\ (forall a st1,
        currentConfigVersion (runGen a st1)
        = currentConfigVersion st1 + (if text_nonempty (textInput a) then 1 else 0))
  /\ (forall a st1,
        currentConfigVersion (processInput a st1) = currentConfigVersion st1
        /\ currentConfigVersion (cancel st1) = currentConfigVersion st1)
  /\ (forall response st1,
        currentConfigVersion (handleErgogenWorkerMessage env response st1)
        = currentConfigVersion st1)
  /\ (forall response st1,
        currentConfigVersion (handleJscadWorkerMessage response st1)
        = currentConfigVersion st1).
Proof.
  split; [apply run_version |].
  split; [apply run_version_monotone |].
  split; [intros; apply runGeneration_version |].
  split; [intros; split; reflexivity |].
  split; [intros; apply handleErgogen_version | intros; apply handleJscad_version].
Qed.

End Runs.

(** C4, as stated, fails: with no Ergogen worker, a generation on
    [points: {}] moves the version from 0 to 1 although no request is
    posted. *)
Lemma version_bumped_without_dispatch :
  let st' :=
    runGeneration Sample.no_json Sample.yaml Sample.env_no_ergogen
      (Sample.args "points: {}") Sample.st0 in
  currentConfigVersion Sample.st0 = 0
  /\ currentConfigVersion st' = 1
  /\ ergogenOut st' = ergogenOut Sample.st0.
Proof. cbv zeta. repeat split. Qed.

(** ** The triggers *)

Lemma advanceClock_0 (st : State) : advanceClock 0 st = st.
Proof. destruct st. unfold advanceClock. cbn. now rewrite Z.add_0_r. Qed.

Lemma advanceClock_add (d1 d2 : Z) (st : State) :
  advanceClock d2 (advanceClock d1 st) = advanceClock (d1 + d2) st.
Proof. unfold advanceClock. cbn. now rewrite Z.add_assoc. Qed.

Lemma last_nonempty_default {A : Type} (x d d' : A) (l : list A) :
  List.last (x :: l) d = List.last (x :: l) d'.
Proof.
  revert x. induction l as [| y l IH]; intros x; [reflexivity |].
  change (List.last (y :: l) d = List.last (y :: l) d'). apply IH.
Qed.

Lemma last_cons {A : Type} (x d : A) (l : list A) :
  List.last (x :: l) d = List.last l x.
Proof.
  destruct l as [| y l]; [reflexivity |].
  change (List.last (y :: l) d = List.last (y :: l) x).
  apply last_nonempty_default.
Qed.

Section Triggers.

Variables JSON_parse yaml_load : string -> option Js.value.
Variable env : Env.

Local Abbreviation runGen := (runGeneration JSON_parse yaml_load env).
Local Abbreviation genNow := (generateNow JSON_parse yaml_load env).
Local Abbreviation elapse' := (elapse JSON_parse yaml_load env).
Local Abbreviation request := (buildRequest JSON_parse yaml_load env).
Local Abbreviation posts := (posts JSON_parse yaml_load env).
Local Abbreviation run' := (run JSON_parse yaml_load env).
Local Abbreviation invocations := (invocations JSON_parse yaml_load env).

(** C10, as the code has it: a trigger called with an undefined or empty
    snapshot text changes none of the version counter, the two busy flags,
    the error and warning texts, the stored results, the results version
    and the two outboxes, neither at the call nor when the timer it armed
    fires.  It is not without effect, though: [runGeneration] alone
    returns the state as it is, but [generateNow] first clears the
    debounce timer and [processInput] re-arms it with the empty snapshot,
    so that a debounced call pending from before never runs. *)
Theorem empty_snapshot_touches_only_timer (a : Args) (st : State) :
  textInput a = None \/ textInput a = Some "" ->
  runGen a st = st
  /\ genNow a st = setTimer None st
  /\ processInput a st = setTimer (Some (300, a)) st
  /\ observable (genNow a st) = observable st
  /\ observable (processInput a st) = observable st
  /\ (forall d, observable (elapse' d (processInput a st)) = observable st)
  /\ (forall d, invocations [Elapse d] (genNow a st) = [])
  /\ (forall d,
        invocations [Elapse d] (processInput a st)
        = if 300 <=? d then [a] else []).
Proof.
  intros H. apply text_nonempty_spec in H.
  assert (Hnow : genNow a st = setTimer None st).
  { unfold generateNow, cancel. now rewrite runGeneration_empty. }
  split; [now apply runGeneration_empty |].
  split; [exact Hnow |].
  split; [reflexivity |].
  split; [rewrite Hnow; reflexivity |].
  split; [reflexivity |].
  split.
  - intros d. unfold elapse, processInput. cbn [timer setTimer].
    destruct (300 <=? d); [| reflexivity].
    rewrite runGeneration_empty by exact H. reflexivity.
  - split; intros d.
    + cbn [invocations invoked]. rewrite Hnow. reflexivity.
    + cbn [invocations invoked processInput timer setTimer].
      destruct (300 <=? d); reflexivity.
Qed.

(** Calls closer together than the quiet period only re-arm the timer:
    after the burst the timer holds the last call's arguments, the clock
    has advanced by the gaps, and no generation has run. *)
Lemma burst_coalesces (later : list (Z * Args)) (a0 : Args) (st : State) :
  Forall (fun c => 0 <= fst c < 300) later ->
  run' (burst later) (processInput a0 st)
    = processInput (List.last (map snd later) a0) (advanceClock (total_gap later) st)
  /\ invocations (burst later) (processInput a0 st) = [].
Proof.
  revert a0 st. induction later as [| [gap a] rest IH]; intros a0 st Hgaps.
  - cbn. rewrite advanceClock_0. split; reflexivity.
  - inversion Hgaps as [| c l Hgap Hrest]; subst. cbn [fst] in Hgap.
    assert (Hlt : (300 <=? gap) = false) by (apply Z.leb_gt; lia).
    assert (Hstep :
      processInput a (elapse' gap (processInput a0 st))
      = processInput a (advanceClock gap st)).
    { unfold elapse, processInput. cbn [timer setTimer]. rewrite Hlt. reflexivity. }
    destruct (IH a (advanceClock gap st) Hrest) as [Hrun Hinv].
    split.
    + cbn [burst]. rewrite !run_cons. cbn [step]. rewrite Hstep, Hrun.
      rewrite advanceClock_add. cbn [map snd total_gap].
      now rewrite last_cons.
    + cbn [burst invocations invoked step].
      unfold processInput at 1. cbn [timer setTimer]. rewrite Hlt.
      cbn [app]. rewrite Hstep. exact Hinv.
Qed.

Lemma invocations_app (evs1 evs2 : list event) (st : State) :
  invocations (evs1 ++ evs2) st
  = (invocations evs1 st ++ invocations evs2 (run' evs1 st))%list.
Proof.
  revert st. induction evs1 as [| e evs1 IH]; intros st; [reflexivity |].
  cbn [app invocations]. rewrite IH, run_cons.
  now rewrite List.app_assoc.
Qed.

(** C5, as the code has it: a run of debounced calls, each less than
    300 ms after the one before, followed by at least 300 ms of quiet,
    runs the generation routine exactly once, with the arguments of the
    last call, 300 ms after that call.  That generation posts exactly one
    message, built from those arguments, when the last snapshot is
    non-empty, the deprecation check returns and the Ergogen worker takes
    the message; otherwise no message is posted. *)
Theorem debounced_burst_generates_once
    (a0 : Args) (later : list (Z * Args)) (quiet : Z) (st : State) :
  Forall (fun c => 0 <= fst c < 300) later -> 300 <= quiet ->
  let evs := (CallProcessInput a0 :: burst later ++ [Elapse quiet])%list in
  let final := List.last (map snd later) a0 in
  let atFire := setTimer None (advanceClock (total_gap later + 300) st) in
  invocations evs st = [final]
  /\ run' evs st = advanceClock (quiet - 300) (runGen final atFire)
  /\ ergogenOut (run' evs st) =
       if posts final
       then (ergogenOut st
               ++ [request (default "" (textInput final)) final
                     (bumpConfigVersion atFire)])%list
       else ergogenOut st.
Proof.
  intros Hgaps Hquiet evs final atFire.
  destruct (burst_coalesces later a0 st Hgaps) as [Hrun Hinv].
  assert (Hle : (300 <=? quiet) = true) by (apply Z.leb_le; lia).
  assert (Hfinal : run' evs st = advanceClock (quiet - 300) (runGen final atFire)).
  { subst evs. rewrite run_cons. cbn [step]. rewrite run_app, Hrun.
    cbn [run fold_left step]. unfold elapse, processInput at 1.
    cbn [timer setTimer]. rewrite Hle.
    subst atFire final. unfold processInput.
    replace (setTimer None
               (advanceClock 300
                  (setTimer (Some (300, List.last (map snd later) a0))
                     (advanceClock (total_gap later) st))))
      with (setTimer None (advanceClock (total_gap later + 300) st))
      by (rewrite <- advanceClock_add; reflexivity).
    reflexivity. }
  split; [| split].
  - subst evs. cbn [invocations invoked app].
    change (step JSON_parse yaml_load env st (CallProcessInput a0))
      with (processInput a0 st).
    rewrite invocations_app, Hinv, Hrun.
    cbn [invocations invoked app]. unfold processInput.
    cbn [timer setTimer]. rewrite Hle. reflexivity.
  - exact Hfinal.
  - rewrite Hfinal. cbn [advanceClock ergogenOut].
    rewrite runGeneration_ergogenOut. reflexivity.
Qed.

(** Once the version has moved past a conversion response's stamp, the
    response is discarded whenever it arrives later. *)
Lemma stale_secondary_discarded_later
    (evs : list event) (response : JscadWorkerResponse) (st : State) :
  response_configVersion response < currentConfigVersion st ->
  handleJscadWorkerMessage response (run' evs st) = run' evs st.
Proof.
  intros Hlt. apply jscad_stale_discarded.
  pose proof (run_version_monotone JSON_parse yaml_load env evs st). lia.
Qed.

End Triggers.

(** With an edit pending for 100 ms, the Generate button on an empty
    editor only clears the timer. *)
Lemma empty_snapshot_touches_only_timer_witness :
  let pending :=
    run Sample.no_json Sample.yaml Sample.env_up
      [CallProcessInput (Sample.args "points: {}"); Elapse 100] Sample.st0 in
  timer pending = Some (200, Sample.args "points: {}")
  /\ generateNow Sample.no_json Sample.yaml Sample.env_up (Sample.full "") pending
     = setTimer None pending
  /\ observable
       (generateNow Sample.no_json Sample.yaml Sample.env_up (Sample.full "") pending)
     = observable pending.
Proof.
  intros pending.
  destruct (empty_snapshot_touches_only_timer Sample.no_json Sample.yaml
              Sample.env_up (Sample.full "") pending (or_intror eq_refl))
    as (_ & Hnow & _ & Hobs & _).
  split; [reflexivity |]. split; [exact Hnow | exact Hobs].
Defined.

(** C10, as stated, fails: an edit has been pending for 100 ms, so that
    left alone it is generated 200 ms later and one request goes out.  A
    call of either trigger with an empty snapshot is not a no-op there:
    [generateNow] changes the state, and after either call the pending
    edit is never generated. *)
Lemma empty_snapshot_drops_pending_call :
  let pending :=
    run Sample.no_json Sample.yaml Sample.env_up
      [CallProcessInput (Sample.args "points: {}"); Elapse 100] Sample.st0 in
  let after (evs : list event) :=
    ergogenOut (run Sample.no_json Sample.yaml Sample.env_up evs pending) in
  generateNow Sample.no_json Sample.yaml Sample.env_up (Sample.full "") pending
    <> pending
  /\ List.length (after [Elapse 300]) = 1%nat
  /\ after [CallGenerateNow (Sample.full ""); Elapse 300] = []
  /\ after [CallProcessInput (Sample.args ""); Elapse 300] = [].
Proof.
  cbv zeta. split; [| split; [| split]]; try reflexivity.
  intros H. apply (f_equal timer) in H. discriminate.
Qed.

(** Three edits 100 ms and 250 ms apart, then a second of quiet: one
    generation, on the third snapshot, and one message. *)
Lemma debounced_burst_generates_once_witness :
  let evs :=
    [CallProcessInput (Sample.args "points: {}");
     Elapse 100; CallProcessInput (Sample.args Sample.legacy_text);
     Elapse 250; CallProcessInput (Sample.args "points: {}");
     Elapse 1000] in
  invocations Sample.no_json Sample.yaml Sample.env_up evs Sample.st0
    = [Sample.args "points: {}"]
  /\ List.length
       (ergogenOut (run Sample.no_json Sample.yaml Sample.env_up evs Sample.st0))
     = 1%nat.
Proof.
  intros evs.
  destruct (debounced_burst_generates_once Sample.no_json Sample.yaml Sample.env_up
              (Sample.args "points: {}")
              [(100, Sample.args Sample.legacy_text); (250, Sample.args "points: {}")]
              1000 Sample.st0) as (Hinv & _ & Hout).
  - repeat constructor; cbn; lia.
  - lia.
  - split; [exact Hinv |]. subst evs. cbn [burst app] in Hout.
    rewrite Hout. reflexivity.
Defined.

(** C5, as stated, fails: two edits 100 ms apart, the second leaving the
    editor empty.  After the quiet period the routine has run once, on
    the empty snapshot, and no message has been posted. *)
Lemma debounced_burst_may_post_nothing :
  invocations Sample.no_json Sample.yaml Sample.env_up
    Sample.burst_ending_empty Sample.st0 = [Sample.args ""]
  /\ ergogenOut
       (run Sample.no_json Sample.yaml Sample.env_up
          Sample.burst_ending_empty Sample.st0) = [].
Proof. split; reflexivity. Qed.

(** ** The deprecation warning *)

Lemma string_app_assoc (s1 s2 s3 : string) :
  (s1 +:+ s2) +:+ s3 = s1 +:+ (s2 +:+ s3).
Proof.
  induction s1 as [| c s1 IH]; [reflexivity |].
  change (String c ((s1 +:+ s2) +:+ s3) = String c (s1 +:+ (s2 +:+ s3))).
  now rewrite IH.
Qed.

Lemma string_app_empty_r (s : string) : s +:+ "" = s.
Proof.
  induction s as [| c s IH]; [reflexivity |].
  change (String c (s +:+ "") = String c s). now rewrite IH.
Qed.

Lemma lookup_set_field_same (k : string) (v : Js.value) (fields : list (string * Js.value)) :
  Js.lookup_field k (Js.set_field k v fields) = v.
Proof.
  induction fields as [| [k' v'] rest IH]; cbn.
  - now rewrite String.eqb_refl.
  - destruct (String.eqb_spec k k') as [-> | Hne]; cbn.
    + now rewrite String.eqb_refl.
    + destruct (String.eqb_spec k k'); [contradiction | exact IH].
Qed.

Lemma lookup_set_field_other (k k0 : string) (v : Js.value)
    (fields : list (string * Js.value)) :
  k <> k0 ->
  Js.lookup_field k (Js.set_field k0 v fields) = Js.lookup_field k fields.
Proof.
  intros Hne. induction fields as [| [k' v'] rest IH]; cbn.
  - destruct (String.eqb_spec k k0); [contradiction | reflexivity].
  - destruct (String.eqb_spec k0 k') as [-> | Hne']; cbn.
    + destruct (String.eqb_spec k k'); [contradiction | reflexivity].
    + destruct (String.eqb_spec k k'); [reflexivity | exact IH].
Qed.

(** The stripped object has lost its [pcbs]: run on it, the check would
    find nothing. *)
Lemma scanDeprecated_stripHeavy (parsedConfig : Js.value) :
  Js.get_opt (stripHeavy parsedConfig) "pcbs" = Js.Undefined
  /\ scanDeprecated (stripHeavy parsedConfig) = Some false.
Proof.
  assert (H : Js.get_opt (stripHeavy parsedConfig) "pcbs" = Js.Undefined).
  { unfold stripHeavy, Js.get_opt, Js.get.
    rewrite lookup_set_field_other by discriminate.
    apply lookup_set_field_same. }
  split; [exact H |].
  unfold scanDeprecated. rewrite H. reflexivity.
Qed.

Lemma isLegacyFootprint_matches (footprint : Js.value) :
  isLegacyFootprint footprint = true -> footprintMatches footprint = true.
Proof.
  destruct footprint; cbn; try discriminate. intros H.
  unfold footprintMatches. cbn. exact H.
Qed.

Lemma isLegacyPcb_matches (pcb : Js.value) :
  isLegacyPcb pcb = true -> pcbMatches pcb = Some true.
Proof.
  destruct pcb as [| | | | | | fields]; cbn; try discriminate.
  intros H. apply andb_prop in H as [Htemplate Hfootprints].
  unfold pcbMatches, Js.get_opt, Js.get.
  assert (Hlegacy :
    negb (Js.truthy (Js.lookup_field "template" fields))
    || Js.is_string "kicad5" (Js.lookup_field "template" fields) = true).
  { destruct (Js.lookup_field "template" fields); cbn in *;
      try discriminate; try reflexivity.
    rewrite Htemplate. apply orb_true_r. }
  rewrite Hlegacy.
  destruct (Js.lookup_field "footprints" fields) as [| | | | | | footprints];
    try discriminate.
  cbn [Js.truthy Js.values]. f_equal.
  apply List.existsb_exists in Hfootprints as (f & Hin & Hf).
  apply List.existsb_exists. exists f. split; [exact Hin |].
  now apply isLegacyFootprint_matches.
Qed.

Lemma scanPcbs_legacy (pcbs : list Js.value) :
  existsb isLegacyPcb pcbs = true -> scanPcbs pcbs <> Some false.
Proof.
  induction pcbs as [| pcb rest IH]; cbn; [discriminate |].
  intros H. destruct (pcbMatches pcb) as [[|] |] eqn:Hm; try discriminate.
  apply orb_prop in H as [H | H].
  - apply isLegacyPcb_matches in H. congruence.
  - now apply IH.
Qed.

(** A snapshot of the deprecated shape makes the check raise the warning,
    unless the check throws on an earlier entry of [pcbs]. *)
Lemma scanDeprecated_legacy (parsedConfig : Js.value) :
  hasLegacyPcb parsedConfig = true -> scanDeprecated parsedConfig <> Some false.
Proof.
  destruct parsedConfig as [| | | | | | fields]; cbn; try discriminate.
  unfold scanDeprecated, Js.get_opt, Js.get. cbn [Js.truthy andb].
  destruct (Js.lookup_field "pcbs" fields) as [| | | | | | pcbs]; try discriminate.
  cbn [Js.truthy Js.values]. apply scanPcbs_legacy.
Qed.

Lemma handleErgogen_success_warning
    (env : Env) (res : option Results) (warnings : list string) (st : State) :
  deprecationWarning (handleErgogenWorkerMessage env (ErgogenSuccess res warnings) st)
  = match warnings with
    | [] => deprecationWarning st
    | _ => Some (appendWarnings warnings (deprecationWarning st))
    end.
Proof.
  destruct res as [r |], warnings; cbn; try reflexivity;
    destruct (stlPreview env && hasCases r && jscadWorkerRef env); reflexivity.
Qed.

Lemma handleJscad_warning (response : JscadWorkerResponse) (st : State) :
  deprecationWarning (handleJscadWorkerMessage response st) = deprecationWarning st.
Proof.
  unfold handleJscadWorkerMessage.
  destruct (negb _); [reflexivity |].
  destruct (response_type response), (response_results response); reflexivity.
Qed.

Lemma deprecationMessage_nonempty :
  text_nonempty (Some deprecationMessage) = true.
Proof. reflexivity. Qed.

Section Deprecation.

Variables JSON_parse yaml_load : string -> option Js.value.
Variable env : Env.

Local Abbreviation parsed text := (snd (parseConfig JSON_parse yaml_load text)).
Local Abbreviation runGen := (runGeneration JSON_parse yaml_load env).
Local Abbreviation request := (buildRequest JSON_parse yaml_load env).
Local Abbreviation run' := (run JSON_parse yaml_load env).

Lemma run_conversions_warning (responses : list JscadWorkerResponse) (st : State) :
  deprecationWarning (run' (map JscadMessage responses) st) = deprecationWarning st.
Proof.
  revert st. induction responses as [| r rest IH]; intros st; [reflexivity |].
  cbn [map]. rewrite run_cons, IH. cbn [step]. apply handleJscad_warning.
Qed.

(** C9: take a snapshot whose parsed form has, under [pcbs], an entry with
    no template (or with [kicad5]) and, under its [footprints], an entry
    whose [what] starts with [ceoloide], and a generation on it that posts
    its message.  Then the check has run on the parsed snapshot as it is
    (the stripped object that may have been posted would not raise the
    warning), the warning text after the generation is the deprecation
    message, it still is after an error response, and after a success
    response and any conversion responses it begins with the deprecation
    message, followed by what the worker reported. *)
Theorem deprecation_warning_raised_and_kept
    (a : Args) (text : string) (st : State) :
  textInput a = Some text ->
  hasLegacyPcb (parsed text) = true ->
  ergogenOut (runGen a st) <> ergogenOut st ->
  let st1 := runGen a st in
  scanDeprecated (parsed text) = Some true
  /\ scanDeprecated (stripHeavy (parsed text)) = Some false
  /\ ergogenOut st1 = (ergogenOut st ++ [request text a (bumpConfigVersion st)])%list
  /\ deprecationWarning st1 = Some deprecationMessage
  /\ (forall message,
        deprecationWarning (handleErgogenWorkerMessage env (ErgogenError message) st1)
        = Some deprecationMessage)
  /\ (forall res warnings conversions,
        exists reported,
          deprecationWarning
            (run' (ErgogenMessage (ErgogenSuccess res warnings)
                     :: map JscadMessage conversions) st1)
          = Some (deprecationMessage +:+ reported)).
Proof.
  intros Ht Hlegacy Hposted st1.
  assert (Hposts : posts JSON_parse yaml_load env a = true).
  { destruct (posts JSON_parse yaml_load env a) eqn:Hp; [reflexivity |].
    exfalso. apply Hposted. rewrite runGeneration_ergogenOut, Hp. reflexivity. }
  pose proof (scanDeprecated_legacy _ Hlegacy) as Hscan.
  pose proof (runGeneration_ergogenOut JSON_parse yaml_load env a st) as Hout.
  rewrite Hposts, Ht in Hout. cbn [default] in Hout.
  unfold posts in Hposts. rewrite Ht in Hposts.
  apply andb_prop in Hposts as [Hne Hw].
  assert (Hn : text <> "").
  { destruct (String.eqb_spec text ""); [discriminate | assumption]. }
  destruct (scanDeprecated (parsed text)) as [[|] |] eqn:Hs;
    [| contradiction | discriminate].
  destruct (ergogenWorkerRef env) as [| [e |]] eqn:Hworker; try discriminate.
  assert (Hw1 : deprecationWarning st1 = Some deprecationMessage).
  { subst st1. rewrite (runGeneration_nonempty _ _ _ a text st Ht Hn), Hs, Hworker.
    reflexivity. }
  split; [reflexivity |].
  split; [apply scanDeprecated_stripHeavy |].
  split; [exact Hout |].
  split; [exact Hw1 |].
  split.
  - intros message. cbn. exact Hw1.
  - intros res warnings conversions. rewrite run_cons, run_conversions_warning.
    cbn [step]. rewrite handleErgogen_success_warning, Hw1.
    destruct warnings as [| w ws].
    + exists "". now rewrite string_app_empty_r.
    + exists (newline +:+ join newline (w :: ws)).
      unfold appendWarnings. rewrite deprecationMessage_nonempty.
      cbn [default]. now rewrite string_app_assoc.
Qed.

End Deprecation.

(** The legacy board of the samples, generated with [pointsonly]: the
    posted config is the stripped object, the warning is raised, and the
    worker's own warning comes after it. *)
Lemma deprecation_warning_raised_and_kept_witness :
  let st1 :=
    runGeneration Sample.no_json Sample.yaml Sample.env_up
      (Sample.args Sample.legacy_text) Sample.st0 in
  (inputConfig <$> ergogenOut st1) = [stripHeavy Sample.cfg_legacy]
  /\ deprecationWarning st1 = Some deprecationMessage
  /\ exists reported,
       deprecationWarning
         (handleErgogenWorkerMessage Sample.env_up
            (ErgogenSuccess None ["unit x is unused"]) st1)
       = Some (deprecationMessage +:+ reported).
Proof.
  intros st1. subst st1.
  destruct (deprecation_warning_raised_and_kept Sample.no_json Sample.yaml
              Sample.env_up (Sample.args Sample.legacy_text) Sample.legacy_text
              Sample.st0)
    as (_ & _ & Hout & Hw & _ & Hsucc).
  - reflexivity.
  - reflexivity.
  - discriminate.
  - split; [rewrite Hout; reflexivity |].
    split; [exact Hw |].
    exact (Hsucc None ["unit x is unused"] []).
Defined.

(** ** Stale responses *)

(** The Ergogen handler never reads the version: whatever the current
    version is, the document of a success response is stored. *)
Lemma primary_response_not_gated
    (env : Env) (r : Results) (warnings : list string) (st : State) :
  results (handleErgogenWorkerMessage env (ErgogenSuccess (Some r) warnings) st)
  = Some (if stlPreview env && hasCases r then markAllPending r else r).
Proof.
  cbn. destruct warnings, (stlPreview env && hasCases r), (jscadWorkerRef env);
    reflexivity.
Qed.

(** C1, on the code: generation 1 and then generation 2 are started, and
    only then the Ergogen worker's answer to request 1 arrives.  The
    handler stores that document although the current version is 2, and
    stamps the conversion request for it with 2.  When the answer to
    request 2 has been stored and the conversion of the first document
    comes back with stamp 2, it passes the version check and replaces the
    newer document.  A conversion response stamped 1 is discarded. *)
Lemma stale_primary_response_overwrites :
  let st1 :=
    run Sample.no_json Sample.yaml Sample.env_up Sample.stale_primary Sample.st0 in
  let st2 :=
    run Sample.no_json Sample.yaml Sample.env_up Sample.stale_overwrite Sample.st0 in
  currentConfigVersion st1 = 2
  /\ (fst <$> (requestId <$> ergogenOut st1)) = [1; 2]
  /\ results st1 = Some (markAllPending Sample.doc_one)
  /\ jscadOut st1 = [mkJscadRequest (markAllPending Sample.doc_one) 2]
  /\ results st2 = Some Sample.doc_one_meshed
  /\ handleJscadWorkerMessage
       (mkJscadResponse JscadSuccess 1 (Some Sample.doc_one_meshed)) st1 = st1.
Proof.
  cbv zeta.
  split; [vm_compute; reflexivity |].
  split; [vm_compute; reflexivity |].
  split; [vm_compute; reflexivity |].
  split; [vm_compute; reflexivity |].
  split; [vm_compute; reflexivity |].
  apply jscad_stale_discarded. vm_compute. discriminate.
Qed.

(** * More of the pipeline *)

(** ** Frames of the dispatch routine *)

Section DispatchFrames.

Variables JSON_parse yaml_load : string -> option Js.value.
Variable env : Env.

Local Abbreviation parsed text := (snd (parseConfig JSON_parse yaml_load text)).
Local Abbreviation runGen := (runGeneration JSON_parse yaml_load env).
Local Abbreviation request := (buildRequest JSON_parse yaml_load env).
Local Abbreviation elapse' := (elapse JSON_parse yaml_load env).
Local Abbreviation step' := (step JSON_parse yaml_load env).
Local Abbreviation run' := (run JSON_parse yaml_load env).
Local Abbreviation invocations := (invocations JSON_parse yaml_load env).

Ltac run_cases text :=
  destruct (scanDeprecated (parsed text)) as [[|] |];
  destruct (ergogenWorkerRef env) as [| [[?s | ?s | ?b] |]];
  cbn; try reflexivity;
  try (destruct (String.eqb _ ""); reflexivity).

Lemma runGeneration_keeps_store (a : Args) (st : State) :
  results (runGen a st) = results st
  /\ resultsVersion (runGen a st) = resultsVersion st
  /\ isJscadConverting (runGen a st) = isJscadConverting st
  /\ timer (runGen a st) = timer st
  /\ now (runGen a st) = now st.
Proof.
  destruct (text_nonempty (textInput a)) eqn:Hne.
  - destruct (text_nonempty_inv a Hne) as (text & Ht & Hn).
    rewrite (runGeneration_nonempty _ _ _ a text st Ht Hn).
    repeat split; run_cases text.
  - rewrite (runGeneration_empty _ _ _ a st Hne). repeat split.
Qed.

(** A generation on a non-empty snapshot starts from a clean slate: what
    it leaves behind does not depend on the error or the warning shown
    before, and it never touches the stored results, the results version,
    the conversion flag or the JSCAD outbox. *)
Theorem generation_forgets_error_and_warning
    (a : Args) (e w : option string) (st : State) :
  text_nonempty (textInput a) = true ->
  runGen a (setError e (setDeprecationWarning w st)) = runGen a st
  /\ results (runGen a st) = results st
  /\ resultsVersion (runGen a st) = resultsVersion st
  /\ isJscadConverting (runGen a st) = isJscadConverting st
  /\ jscadOut (runGen a st) = jscadOut st.
Proof.
  intros Hne. split.
  - destruct (text_nonempty_inv a Hne) as (text & Ht & Hn).
    rewrite !(runGeneration_nonempty _ _ _ a text _ Ht Hn).
    run_cases text.
  - destruct (runGeneration_keeps_store a st) as (H1 & H2 & H3 & _).
    repeat split; try assumption. apply runGeneration_jscadOut.
Qed.

(** When neither [JSON.parse] nor [yaml.load] can read the snapshot, the
    check and the stripping are skipped: no warning is raised and the text
    goes to the worker as it is, stamped with the new version. *)
Theorem unparseable_snapshot_sent_verbatim (a : Args) (text : string) (st : State) :
  textInput a = Some text -> text <> "" ->
  JSON_parse text = None -> yaml_load text = None ->
  ergogenWorkerRef env = Worker None ->
  ergogenOut (runGen a st)
    = (ergogenOut st
         ++ [mkErgogenRequest (Js.Str text) (injections a)
               (currentConfigVersion st + 1, now st) (debug env) true])%list
  /\ deprecationWarning (runGen a st) = None
  /\ error (runGen a st) = None
  /\ isGenerating (runGen a st) = true.
Proof.
  intros Ht Hn Hj Hy Hw.
  rewrite (runGeneration_nonempty _ _ _ a text st Ht Hn).
  unfold buildRequest, parseConfig. rewrite Hj, Hy, Hw. cbn.
  repeat split.
Qed.

(** An empty entry under [pcbs] that comes before any entry raising the
    warning makes the check throw: the routine is left with the version
    incremented and [isGenerating] on, and nothing is posted. *)
Theorem null_pcb_entry_aborts_generation
    (a : Args) (text : string) (fields : list (string * Js.value))
    (before after : list (string * Js.value)) (name : string) (st : State) :
  textInput a = Some text -> text <> "" ->
  parsed text = Js.Obj fields ->
  Js.lookup_field "pcbs" fields = Js.Obj (before ++ (name, Js.Null) :: after) ->
  Forall (fun p => pcbMatches (snd p) = Some false) before ->
  runGen a st = started st
  /\ ergogenOut (runGen a st) = ergogenOut st
  /\ isGenerating (runGen a st) = true
  /\ currentConfigVersion (runGen a st) = currentConfigVersion st + 1.
Proof.
  intros Ht Hn Hp Hpcbs Hbefore.
  assert (Hscan : scanDeprecated (parsed text) = None).
  { rewrite Hp. unfold scanDeprecated, Js.get_opt, Js.get. rewrite Hpcbs.
    cbn [Js.truthy andb Js.values]. rewrite map_app. cbn [map snd].
    clear Hpcbs. induction Hbefore as [| p before Hp' _ IH]; [reflexivity |].
    cbn [app map scanPcbs]. now rewrite Hp'. }
  rewrite (runGeneration_nonempty _ _ _ a text st Ht Hn), Hscan.
  repeat split.
Qed.

(** What the worker receives for a points-only generation of a snapshot
    with points: an object whose [pcbs] and [cases] read [undefined] and
    whose other keys read as in the parsed snapshot. *)
Theorem points_only_request_is_stripped
    (a : Args) (text : string) (fields : list (string * Js.value)) (st : State) :
  textInput a = Some text ->
  parsed text = Js.Obj fields ->
  Js.truthy (Js.lookup_field "points" fields) = true ->
  options a = None \/ options a = Some (mkOptions true) ->
  exists sent,
    inputConfig (request text a st) = Js.Obj sent
    /\ Js.lookup_field "pcbs" sent = Js.Undefined
    /\ Js.lookup_field "cases" sent = Js.Undefined
    /\ forall k, k <> "pcbs" -> k <> "cases" ->
         Js.lookup_field k sent = Js.lookup_field k fields.
Proof.
  intros Ht Hp Hpoints Hopt.
  exists (Js.set_field "cases" Js.Undefined (Js.set_field "pcbs" Js.Undefined fields)).
  split.
  - unfold buildRequest. rewrite Hp. unfold Js.get_opt, Js.get. rewrite Hpoints.
    destruct Hopt as [-> | ->]; reflexivity.
  - split; [| split].
    + rewrite lookup_set_field_other by discriminate. apply lookup_set_field_same.
    + apply lookup_set_field_same.
    + intros k Hk1 Hk2. now rewrite !lookup_set_field_other.
Qed.

End DispatchFrames.

(** ** Invariants of a run *)

Lemma StronglySorted_snoc (l : list Z) (x : Z) :
  StronglySorted Z.lt l -> Forall (fun v => v < x) l ->
  StronglySorted Z.lt (l ++ [x]).
Proof.
  intros Hs Hall. induction Hs as [| y l Hs IH Hy]; cbn.
  - constructor; constructor.
  - inversion Hall as [| ? ? Hyx Hall']; subst.
    constructor; [now apply IH |].
    apply Forall_app. split; [exact Hy | now constructor].
Qed.

Section RunInvariants.

Variables JSON_parse yaml_load : string -> option Js.value.
Variable env : Env.

Local Abbreviation runGen := (runGeneration JSON_parse yaml_load env).
Local Abbreviation genNow := (generateNow JSON_parse yaml_load env).
Local Abbreviation elapse' := (elapse JSON_parse yaml_load env).
Local Abbreviation step' := (step JSON_parse yaml_load env).
Local Abbreviation run' := (run JSON_parse yaml_load env).
Local Abbreviation invocations := (invocations JSON_parse yaml_load env).

Lemma handleErgogen_ergogenOut (response : ErgogenWorkerResponse) (st : State) :
  ergogenOut (handleErgogenWorkerMessage env response st) = ergogenOut st.
Proof.
  destruct response as [m | [r |] ws |]; cbn; try reflexivity;
    destruct ws; cbn; try reflexivity;
    destruct (stlPreview env && hasCases r && jscadWorkerRef env); reflexivity.
Qed.

Lemma handleJscad_outboxes (response : JscadWorkerResponse) (st : State) :
  ergogenOut (handleJscadWorkerMessage response st) = ergogenOut st
  /\ jscadOut (handleJscadWorkerMessage response st) = jscadOut st.
Proof.
  unfold handleJscadWorkerMessage. destruct (negb _); [split; reflexivity |].
  destruct (response_type response), (response_results response); split; reflexivity.
Qed.

(** *** Stamps of the primary requests *)

Lemma runGeneration_stamps (a : Args) (st : State) :
  stampsOrdered st -> stampsOrdered (runGen a st).
Proof.
  intros [Hsorted Hbound]. unfold stampsOrdered, primaryStamps in *.
  rewrite runGeneration_ergogenOut, runGeneration_version.
  destruct (posts JSON_parse yaml_load env a) eqn:Hp.
  - assert (Hne : text_nonempty (textInput a) = true).
    { unfold posts in Hp. unfold text_nonempty.
      destruct (textInput a); [| discriminate].
      now apply andb_prop in Hp as [Hp _]. }
    rewrite Hne, fmap_app. cbn [fmap list_fmap requestId buildRequest fst
                                 bumpConfigVersion currentConfigVersion].
    split.
    + apply StronglySorted_snoc; [exact Hsorted |].
      eapply Forall_impl; [exact Hbound |]. cbn. intros; lia.
    + apply Forall_app. split.
      * eapply Forall_impl; [exact Hbound |]. cbn. intros; lia.
      * constructor; [lia | constructor].
  - split; [exact Hsorted |].
    eapply Forall_impl; [exact Hbound |]. cbn. intros v Hv.
    destruct (text_nonempty (textInput a)); lia.
Qed.

Lemma step_stamps (st : State) (e : event) :
  stampsOrdered st -> stampsOrdered (step' st e).
Proof.
  intros H. destruct e as [a | a | d | response | response]; cbn [step].
  - exact H.
  - unfold generateNow. apply runGeneration_stamps. exact H.
  - unfold elapse. destruct (timer st) as [[r a] |]; [| exact H].
    destruct (r <=? d); [| exact H].
    pose proof (runGeneration_stamps a (setTimer None (advanceClock r st)) H) as H'.
    exact H'.
  - unfold stampsOrdered, primaryStamps.
    rewrite handleErgogen_ergogenOut, handleErgogen_version. exact H.
  - unfold stampsOrdered, primaryStamps.
    rewrite (proj1 (handleJscad_outboxes response st)), handleJscad_version. exact H.
Qed.

(** The requests posted to the Ergogen worker carry strictly increasing
    version stamps, none ahead of the current version: no two requests
    share a stamp, whatever the run. *)
Theorem primary_stamps_strictly_increase (evs : list event) (st : State) :
  stampsOrdered st -> stampsOrdered (run' evs st).
Proof.
  revert st. induction evs as [| e evs IH]; intros st H; [exact H |].
  rewrite run_cons. apply IH, step_stamps, H.
Qed.

(** *** Conversion requests *)

Lemma markAllPending_meshesPending (r : Results) : meshesPending (markAllPending r).
Proof.
  intros cs' name c' Hcs Hl Hg. unfold markAllPending in Hcs. cbn in Hcs.
  destruct (cases r) as [cs |]; [| discriminate].
  injection Hcs as <-. rewrite lookup_fmap in Hl.
  destruct (cs !! name) as [c |]; [| discriminate].
  cbn in Hl. injection Hl as <-. unfold markPending in *.
  destruct (field_truthy (jscad c)) eqn:Hc; [reflexivity |].
  rewrite Hc in Hg. discriminate.
Qed.

Lemma conversions_weaken (st st' : State) :
  jscadOut st' = jscadOut st ->
  currentConfigVersion st <= currentConfigVersion st' ->
  conversionsWellFormed st -> conversionsWellFormed st'.
Proof.
  unfold conversionsWellFormed. intros -> Hle H.
  eapply Forall_impl; [exact H |]. cbn. intros m [Hm Hp]. split; [lia | exact Hp].
Qed.

Lemma handleErgogen_conversions (response : ErgogenWorkerResponse) (st : State) :
  conversionsWellFormed st ->
  conversionsWellFormed (handleErgogenWorkerMessage env response st).
Proof.
  intros H. unfold conversionsWellFormed.
  rewrite handleErgogen_version.
  destruct response as [m | [r |] ws |];
    [exact H | | destruct ws; exact H | exact H].
  assert (Hout :
      jscadOut (handleErgogenWorkerMessage env (ErgogenSuccess (Some r) ws) st)
      = if stlPreview env && hasCases r && jscadWorkerRef env
        then (jscadOut st ++ [mkJscadRequest (markAllPending r) (currentConfigVersion st)])%list
        else jscadOut st).
  { cbn. destruct ws, (stlPreview env && hasCases r) eqn:Hm, (jscadWorkerRef env);
      reflexivity. }
  rewrite Hout. destruct (stlPreview env && hasCases r && jscadWorkerRef env);
    [| exact H].
  apply Forall_app. split; [exact H |].
  constructor; [| constructor]. cbn. split; [lia |].
  apply markAllPending_meshesPending.
Qed.

Lemma step_conversions (st : State) (e : event) :
  conversionsWellFormed st -> conversionsWellFormed (step' st e).
Proof.
  intros H. destruct e as [a | a | d | response | response]; cbn [step].
  - exact H.
  - unfold generateNow.
    apply (conversions_weaken (cancel st)); [| | exact H].
    + apply runGeneration_jscadOut.
    + rewrite runGeneration_version. destruct (text_nonempty _); cbn; lia.
  - unfold elapse. destruct (timer st) as [[r a] |]; [| exact H].
    destruct (r <=? d); [| exact H].
    apply (conversions_weaken st); [| | exact H].
    + cbn [advanceClock jscadOut]. now rewrite runGeneration_jscadOut.
    + cbn [advanceClock currentConfigVersion]. rewrite runGeneration_version.
      destruct (text_nonempty _); cbn; lia.
  - now apply handleErgogen_conversions.
  - apply (conversions_weaken st); [| | exact H].
    + apply handleJscad_outboxes.
    + rewrite handleJscad_version. lia.
Qed.

(** Whatever the run, a request posted to the JSCAD worker is stamped with
    a version that had been reached, and in its document every case with
    geometry has [stl] set to [undefined]: no mesh of an earlier
    conversion travels back to the converter. *)
Theorem conversion_requests_well_formed (evs : list event) (st : State) :
  conversionsWellFormed st -> conversionsWellFormed (run' evs st).
Proof.
  revert st. induction evs as [| e evs IH]; intros st H; [exact H |].
  rewrite run_cons. apply IH, step_conversions, H.
Qed.

(** *** The results version *)

Lemma step_results_version (st : State) (e : event) :
  (results (step' st e) = results st
   /\ resultsVersion (step' st e) = resultsVersion st)
  \/ resultsVersion (step' st e) = resultsVersion st + 1.
Proof.
  destruct e as [a | a | d | response | response]; cbn [step].
  - left. split; reflexivity.
  - left. unfold generateNow.
    destruct (runGeneration_keeps_store JSON_parse yaml_load env a (cancel st))
      as (H1 & H2 & _). split; assumption.
  - left. unfold elapse. destruct (timer st) as [[r a] |]; [| split; reflexivity].
    destruct (r <=? d); [| split; reflexivity].
    destruct (runGeneration_keeps_store JSON_parse yaml_load env a
                (setTimer None (advanceClock r st))) as (H1 & H2 & _).
    split; assumption.
  - destruct response as [m | [r |] ws |].
    + left. split; reflexivity.
    + right. cbn.
      destruct ws, (stlPreview env && hasCases r), (jscadWorkerRef env); reflexivity.
    + left. destruct ws; split; reflexivity.
    + left. split; reflexivity.
  - unfold handleJscadWorkerMessage. destruct (negb _); [left; split; reflexivity |].
    destruct (response_type response), (response_results response);
      (left; split; reflexivity) || (right; reflexivity).
Qed.

(** The results version never goes down, and the stored results cannot
    change without it going up: a consumer that sees the same version sees
    the same results. *)
Theorem results_version_tracks_results (evs : list event) (st : State) :
  resultsVersion st <= resultsVersion (run' evs st)
  /\ (resultsVersion (run' evs st) = resultsVersion st ->
      results (run' evs st) = results st).
Proof.
  revert st. induction evs as [| e evs IH]; intros st.
  - split; [cbn; lia | reflexivity].
  - rewrite run_cons. destruct (IH (step' st e)) as [Hle Heq].
    destruct (step_results_version st e) as [[Hr Hv] | Hv].
    + rewrite Hv in *. split; [exact Hle |].
      intros H. rewrite (Heq H). exact Hr.
    + split; [lia |]. intros H. lia.
Qed.

(** *** Superseded conversions *)

(** Once a generation on a non-empty snapshot has started, a conversion
    response stamped with the version of before, or an older one, is
    dropped whenever it arrives: it changes nothing, not even the busy
    flags. *)
Theorem superseded_conversion_dropped
    (a : Args) (response : JscadWorkerResponse) (evs : list event) (st : State) :
  text_nonempty (textInput a) = true ->
  response_configVersion response <= currentConfigVersion st ->
  handleJscadWorkerMessage response (run' evs (genNow a st))
  = run' evs (genNow a st).
Proof.
  intros Hne Hle. apply jscad_stale_discarded.
  pose proof (run_version_monotone JSON_parse yaml_load env evs (genNow a st)) as Hm.
  unfold generateNow in Hm at 1. rewrite runGeneration_version, Hne in Hm.
  cbn [cancel setTimer currentConfigVersion] in Hm. lia.
Qed.

(** *** The two triggers together *)

Lemma runGeneration_timer (a : Args) (st : State) : timer (runGen a st) = timer st.
Proof. apply runGeneration_keeps_store. Qed.

(** [generateNow] takes the place of a pending debounced call: the timer is
    cleared, and however long one waits afterwards only the immediate
    generation has run. *)
Theorem generateNow_replaces_pending_call
    (a b : Args) (d quiet : Z) (st : State) :
  0 <= d < 300 ->
  let evs := [CallProcessInput a; Elapse d; CallGenerateNow b; Elapse quiet] in
  invocations evs st = [b] /\ timer (run' evs st) = None.
Proof.
  intros Hd evs. subst evs.
  assert (Hlt : (300 <=? d) = false) by (apply Z.leb_gt; lia).
  assert (Ht : timer (genNow b (elapse' d (processInput a st))) = None).
  { unfold generateNow. now rewrite runGeneration_timer. }
  split.
  - cbn [invocations invoked step app]. unfold processInput at 1.
    cbn [timer setTimer]. rewrite Hlt. cbn [app].
    rewrite Ht. reflexivity.
  - cbn [run fold_left step]. unfold elapse at 1. rewrite Ht.
    cbn [advanceClock timer]. exact Ht.
Qed.

End RunInvariants.

(** ** The first render *)

Section Mounting.

Variables JSON_parse yaml_load : string -> option Js.value.
Variable env : Env.

Local Abbreviation runGen := (runGeneration JSON_parse yaml_load env).
Local Abbreviation elapse' := (elapse JSON_parse yaml_load env).
Local Abbreviation run' := (run JSON_parse yaml_load env).
Local Abbreviation invocations := (invocations JSON_parse yaml_load env).

(** Unless [postMessage] throws, a generation on a non-empty snapshot
    leaves no error behind. *)
Lemma runGeneration_error_cleared (a : Args) (st : State) :
  text_nonempty (textInput a) = true ->
  (forall e, ergogenWorkerRef env <> Worker (Some e)) ->
  error (runGen a st) = None.
Proof.
  intros Hne Hw. destruct (text_nonempty_inv a Hne) as (text & Ht & Hn).
  rewrite (runGeneration_nonempty _ _ _ a text st Ht Hn).
  destruct (scanDeprecated _) as [[|] |];
    destruct (ergogenWorkerRef env) as [| [e |]] eqn:Hworker;
    try reflexivity; exfalso; exact (Hw e eq_refl).
Qed.

(** Mounted with a hash error, the provider shows it and starts no
    generation.  With auto-generation off, or with no configuration, the
    error stays however long one waits.  With auto-generation on and a
    configuration present, the debounced generation of the first render
    runs 300 ms later and takes the hash error away. *)
Theorem hash_error_survives_only_without_autogen (p : Provider.Props) (clock : Z) :
  text_nonempty (Provider.hashError p) = true ->
  let st0 := Provider.hashErrorEffect p (Provider.initialState clock) in
  let st1 := run' (Provider.mountCalls p) st0 in
  error st1 = Provider.hashError p
  /\ invocations (Provider.mountCalls p) st0 = []
  /\ currentConfigVersion st1 = 0
  /\ ergogenOut st1 = []
  /\ (Provider.autoGen p = false
      \/ text_nonempty (Provider.configInput p) = false ->
      forall d, error (elapse' d st1) = Provider.hashError p)
  /\ (Provider.autoGen p = true ->
      text_nonempty (Provider.configInput p) = true ->
      (forall e, ergogenWorkerRef env <> Worker (Some e)) ->
      forall d, 300 <= d -> error (elapse' d st1) = None).
Proof.
  intros Hh st0 st1. subst st0 st1.
  unfold Provider.mountCalls, Provider.initialLoadCalls, Provider.autoGenCalls,
    Provider.hashErrorEffect.
  rewrite Hh. cbn [app].
  destruct (Provider.autoGen p) eqn:Hauto; cbn [run fold_left step invocations invoked app].
  - repeat split.
    + intros [Hoff | Hempty] d; [discriminate |].
      unfold elapse, processInput. cbn [timer setTimer].
      destruct (300 <=? d); [| reflexivity].
      rewrite runGeneration_empty by exact Hempty. reflexivity.
    + intros _ Hcfg Hw d Hd.
      unfold elapse, processInput. cbn [timer setTimer].
      assert (Hle : (300 <=? d) = true) by (apply Z.leb_le; lia).
      rewrite Hle. cbn [advanceClock error].
      now apply runGeneration_error_cleared.
  - repeat split. intros Hon. discriminate.
Qed.

(** A plain page load (no hash error, no [github] parameter) with a
    configuration generates it at once in full; with auto-generation on it
    generates it a second time 300 ms later, then with
    [pointsonly: !autoGen3D].  The version has moved by one per
    generation. *)
Theorem page_load_generates_twice (p : Provider.Props) (d clock : Z) :
  text_nonempty (Provider.hashError p) = false ->
  text_nonempty (Provider.githubUrl p) = false ->
  text_nonempty (Provider.configInput p) = true ->
  300 <= d ->
  let full :=
    mkArgs (Provider.configInput p) (Provider.injectionInput p)
      (Some (mkOptions false)) in
  let auto :=
    mkArgs (Provider.configInput p) (Provider.injectionInput p)
      (Some (mkOptions (negb (Provider.autoGen3D p)))) in
  let st := Provider.hashErrorEffect p (Provider.initialState clock) in
  let evs := (Provider.mountCalls p ++ [Elapse d])%list in
  st = Provider.initialState clock
  /\ invocations evs st = (if Provider.autoGen p then [full; auto] else [full])
  /\ currentConfigVersion (run' evs st) = (if Provider.autoGen p then 2 else 1).
Proof.
  intros Hh Hg Hc Hd full auto st evs.
  assert (Hst : st = Provider.initialState clock).
  { subst st. unfold Provider.hashErrorEffect. now rewrite Hh. }
  rewrite Hst. clear Hst st.
  assert (Hinv : invocations evs (Provider.initialState clock)
                 = (if Provider.autoGen p then [full; auto] else [full])).
  { subst evs. unfold Provider.mountCalls, Provider.initialLoadCalls,
      Provider.autoGenCalls. rewrite Hh, Hg, Hc.
    assert (Hle : (300 <=? d) = true) by (apply Z.leb_le; lia).
    destruct (Provider.autoGen p);
      cbn [app invocations invoked step processInput timer setTimer].
    - rewrite Hle. reflexivity.
    - unfold generateNow. rewrite runGeneration_timer. reflexivity. }
  split; [reflexivity |].
  split; [exact Hinv |].
  rewrite run_version, Hinv. unfold generations. subst full auto.
  destruct (Provider.autoGen p); cbn [List.filter textInput]; rewrite Hc;
    reflexivity.
Qed.

End Mounting.

Lemma hash_error_survives_only_without_autogen_witness :
  let st1 :=
    run Sample.no_json Sample.yaml Sample.env_up
      (Provider.mountCalls Sample2.props_hash_error)
      (Provider.hashErrorEffect Sample2.props_hash_error (Provider.initialState 0)) in
  error st1 = Some "Invalid share link"
  /\ error (elapse Sample.no_json Sample.yaml Sample.env_up 300 st1) = None.
Proof.
  intros st1. subst st1.
  destruct (hash_error_survives_only_without_autogen Sample.no_json Sample.yaml
              Sample.env_up Sample2.props_hash_error 0 eq_refl)
    as (He & _ & _ & _ & _ & Hgone).
  split; [exact He |].
  apply Hgone; [reflexivity | reflexivity | discriminate | lia].
Defined.

Lemma page_load_generates_twice_witness :
  currentConfigVersion
    (run Sample.no_json Sample.yaml Sample.env_up
       (Provider.mountCalls Sample2.props_plain ++ [Elapse 300])
       (Provider.hashErrorEffect Sample2.props_plain (Provider.initialState 0)))
  = 2.
Proof.
  destruct (page_load_generates_twice Sample.no_json Sample.yaml Sample.env_up
              Sample2.props_plain 300 0
              eq_refl eq_refl eq_refl ltac:(lia)) as (_ & _ & Hv).
  exact Hv.
Defined.

(** ** Settings in local storage *)

(** The saved settings are read back as they were saved, by any
    [JSON.parse] that reads the two boolean literals; the save touches no
    other key. *)
Theorem settings_round_trip
    (JSON_parse : string -> option Js.value)
    (s : Persist.Settings) (localStorage : gmap string string) :
  JSON_parse "true" = Some (Js.Bool true) ->
  JSON_parse "false" = Some (Js.Bool false) ->
  Persist.loadSettings JSON_parse (Persist.saveSettings s localStorage)
  = [Some (Js.Bool (Persist.debug s));
     Some (Js.Bool (Persist.autoGen s));
     Some (Js.Bool (Persist.autoGen3D s));
     Some (Js.Bool (Persist.kicanvasPreview s));
     Some (Js.Bool (Persist.stlPreview s))]
  /\ Persist.saveSettings s localStorage !! "ergogen:injection"
     = localStorage !! "ergogen:injection".
Proof.
  intros Htrue Hfalse.
  assert (Hparse : forall b, JSON_parse (Persist.stringify b) = Some (Js.Bool b)).
  { intros [|]; assumption. }
  assert (Hne : forall b, String.eqb (Persist.stringify b) "" = false).
  { intros [|]; reflexivity. }
  split.
  - unfold Persist.loadSettings, Persist.localStorageOrDefault, Persist.saveSettings.
    repeat (rewrite lookup_insert_ne by discriminate).
    rewrite !lookup_insert_eq.
    repeat (rewrite lookup_insert_ne by discriminate).
    rewrite !lookup_insert_eq.
    repeat (rewrite lookup_insert_ne by discriminate).
    rewrite !lookup_insert_eq.
    repeat (rewrite lookup_insert_ne by discriminate).
    rewrite !lookup_insert_eq.
    rewrite !Hne, !Hparse. reflexivity.
  - unfold Persist.saveSettings.
    repeat (rewrite lookup_insert_ne by discriminate). reflexivity.
Qed.

Lemma settings_round_trip_witness :
  Persist.loadSettings Sample2.json_literals
    (Persist.saveSettings (Persist.mkSettings true false true false true) ∅)
  = [Some (Js.Bool true); Some (Js.Bool false); Some (Js.Bool true);
     Some (Js.Bool false); Some (Js.Bool true)].
Proof.
  exact (proj1 (settings_round_trip Sample2.json_literals
                  (Persist.mkSettings true false true false true) ∅
                  eq_refl eq_refl)).
Defined.

(** ** Footprints *)

Module EditorFacts.

Import Editor.

Lemma filterIndexed_all {A : Type} (k i0 : Z) (l : list A) :
  k < i0 -> filterIndexed (fun i => negb (i =? k)) i0 l = l.
Proof.
  revert i0. induction l as [| x rest IH]; intros i0 Hlt; [reflexivity |].
  cbn [filterIndexed]. destruct (Z.eqb_spec i0 k) as [-> | _]; [lia |].
  cbn [negb]. rewrite IH by lia. reflexivity.
Qed.

(** Filtering out one index is deleting the element at that index. *)
Lemma filterIndexed_delete {A : Type} (k i0 : Z) (l : list A) :
  i0 <= k ->
  filterIndexed (fun i => negb (i =? k)) i0 l = delete (Z.to_nat (k - i0)) l.
Proof.
  revert i0. induction l as [| x rest IH]; intros i0 Hle; [reflexivity |].
  cbn [filterIndexed]. destruct (Z.eqb_spec i0 k) as [-> | Hne]; cbn [negb].
  - rewrite Z.sub_diag. cbn. apply filterIndexed_all. lia.
  - rewrite IH by lia.
    replace (Z.to_nat (k - i0)) with (S (Z.to_nat (k - (i0 + 1)))) by lia.
    reflexivity.
Qed.

Lemma mapIndexed_same {A : Type} (k i0 : Z) (e : A) (l : list A) :
  k < i0 -> mapIndexed (fun x i => if i =? k then e else x) i0 l = l.
Proof.
  revert i0. induction l as [| x rest IH]; intros i0 Hlt; [reflexivity |].
  cbn [mapIndexed]. destruct (Z.eqb_spec i0 k) as [-> | _]; [lia |].
  rewrite IH by lia. reflexivity.
Qed.

(** Mapping with a replacement at one index is the list update. *)
Lemma mapIndexed_insert {A : Type} (k i0 : Z) (e : A) (l : list A) :
  i0 <= k ->
  mapIndexed (fun x i => if i =? k then e else x) i0 l
  = <[Z.to_nat (k - i0) := e]> l.
Proof.
  revert i0. induction l as [| x rest IH]; intros i0 Hle; [reflexivity |].
  cbn [mapIndexed]. destruct (Z.eqb_spec i0 k) as [-> | Hne].
  - rewrite Z.sub_diag. change (Z.to_nat 0) with 0%nat.
    rewrite mapIndexed_same by lia. reflexivity.
  - rewrite IH by lia.
    replace (Z.to_nat (k - i0)) with (S (Z.to_nat (k - (i0 + 1)))) by lia.
    reflexivity.
Qed.

Lemma asFootprint_Some (i : Z) (injection : list string) (f : Footprint) :
  asFootprint i injection = Some f <->
  key f = i /\ type f = "footprint" /\ injection = [type f; name f; content f].
Proof.
  unfold asFootprint. split.
  - destruct injection as [| t [| n [| c [| x rest]]]]; try discriminate.
    destruct (String.eqb_spec t "footprint") as [-> | _]; [| discriminate].
    intros [= <-]. repeat split.
  - intros (<- & Ht & ->). rewrite Ht. cbn. destruct f as [k t n c]. cbn in *.
    now subst t.
Qed.

Lemma collectFootprints_spec (i0 : Z) (l : list (list string)) (f : Footprint) :
  f ∈ collectFootprints i0 l <->
  type f = "footprint" /\ i0 <= key f
  /\ l !! Z.to_nat (key f - i0) = Some [type f; name f; content f].
Proof.
  revert i0. induction l as [| injection rest IH]; intros i0.
  - cbn. split; [intros H; inversion H | intros (_ & _ & H); discriminate].
  - assert (Hrest :
      f ∈ collectFootprints (i0 + 1) rest <->
      type f = "footprint" /\ i0 < key f
      /\ (injection :: rest) !! Z.to_nat (key f - i0)
         = Some [type f; name f; content f]).
    { rewrite IH. split.
      - intros (Ht & Hle & Hl). repeat split; [exact Ht | lia |].
        replace (Z.to_nat (key f - i0)) with (S (Z.to_nat (key f - (i0 + 1)))) by lia.
        exact Hl.
      - intros (Ht & Hlt & Hl). repeat split; [exact Ht | lia |].
        replace (Z.to_nat (key f - i0)) with (S (Z.to_nat (key f - (i0 + 1)))) in Hl
          by lia.
        exact Hl. }
    cbn [collectFootprints].
    destruct (asFootprint i0 injection) as [g |] eqn:Hg.
    + apply asFootprint_Some in Hg as (Hk & Hgt & Hinj).
      rewrite elem_of_cons, Hrest. split.
      * intros [-> | (Ht & Hlt & Hl)].
        -- repeat split; [exact Hgt | lia |]. rewrite Hk, Z.sub_diag. cbn.
           now rewrite Hinj.
        -- repeat split; [exact Ht | lia | exact Hl].
      * intros (Ht & Hle & Hl).
        destruct (Z.eq_dec (key f) i0) as [Heq | Hne].
        -- left. rewrite Heq, Z.sub_diag in Hl. cbn in Hl.
           injection Hl as Hl. rewrite Hinj in Hl. injection Hl as H1 H2 H3.
           destruct f, g; cbn in *; congruence.
        -- right. repeat split; [exact Ht | lia | exact Hl].
    + rewrite Hrest. split.
      * intros (Ht & Hlt & Hl). repeat split; [exact Ht | lia | exact Hl].
      * intros (Ht & Hle & Hl).
        destruct (Z.eq_dec (key f) i0) as [Heq | Hne].
        -- exfalso. rewrite Heq, Z.sub_diag in Hl. cbn in Hl. injection Hl as Hl.
           assert (Hsome : asFootprint i0 injection = Some f).
           { apply asFootprint_Some. repeat split; [exact Heq | exact Ht | exact Hl]. }
           congruence.
        -- repeat split; [exact Ht | lia | exact Hl].
Qed.

(** The footprint list shows exactly the injections that are triples of
    type [footprint], each under the index of its injection. *)
Theorem footprints_are_the_footprint_injections (ui : Ui) (f : Footprint) :
  f ∈ footprints ui <->
  exists l,
    injectionInput ui = Some l
    /\ type f = "footprint"
    /\ at_index l (key f) = Some [type f; name f; content f].
Proof.
  unfold footprints, at_index. destruct (injectionInput ui) as [l |].
  - rewrite collectFootprints_spec, Z.sub_0_r. split.
    + intros (Ht & Hle & Hl). exists l. repeat split; [exact Ht |].
      destruct (Z.ltb_spec (key f) 0); [lia | exact Hl].
    + intros (l' & [= <-] & Ht & Hl).
      destruct (Z.ltb_spec (key f) 0); [discriminate |].
      repeat split; [exact Ht | lia | exact Hl].
  - split; [intros H; inversion H | intros (l' & H & _); discriminate].
Qed.

(** Deleting a footprint removes exactly its injection; the footprint in
    the editor is reset when it is the deleted one, and otherwise still
    designates the injection it designated before. *)
Theorem delete_keeps_selection
    (footprint : Footprint) (ui : Ui) (l : list (list string)) :
  injectionInput ui = Some l ->
  0 <= key footprint < Z.of_nat (List.length l) ->
  let ui' := handleDeleteFootprint footprint ui in
  let selected := footprintToEdit ui in
  let selected' := footprintToEdit ui' in
  injectionInput ui' = Some (delete (Z.to_nat (key footprint)) l)
  /\ (key selected = key footprint -> selected' = emptyFootprint)
  /\ (key selected <> key footprint ->
      at_index (delete (Z.to_nat (key footprint)) l) (key selected')
        = at_index l (key selected)
      /\ type selected' = type selected
      /\ name selected' = name selected
      /\ content selected' = content selected).
Proof.
  intros Hl Hk ui' selected selected'. subst ui' selected selected'.
  unfold handleDeleteFootprint. rewrite Hl.
  rewrite filterIndexed_delete by lia. rewrite Z.sub_0_r.
  destruct (Z.eqb_spec (key (footprintToEdit ui)) (key footprint)) as [Heq | Hne].
  - split; [reflexivity |]. split; [intros _; reflexivity |].
    intros Hc. contradiction.
  - destruct (Z.ltb_spec (key footprint) (key (footprintToEdit ui))) as [Hlt | Hge].
    + split; [reflexivity |]. split; [intros Hc; contradiction |]. intros _.
      cbn [footprintToEdit setFootprintToEdit setInjectionInput setKey
           key type name content].
      split; [| repeat split]. unfold at_index.
      destruct (Z.ltb_spec (key (footprintToEdit ui) - 1) 0); [lia |].
      destruct (Z.ltb_spec (key (footprintToEdit ui)) 0); [lia |].
      rewrite list_lookup_delete_ge by lia. f_equal. lia.
    + split; [reflexivity |]. split; [intros Hc; contradiction |]. intros _.
      cbn [footprintToEdit setInjectionInput].
      split; [| repeat split]. unfold at_index.
      destruct (Z.ltb_spec (key (footprintToEdit ui)) 0); [reflexivity |].
      apply list_lookup_delete_lt. lia.
Qed.

(** *** The auto-save effect *)

Lemma setKey_same (f : Footprint) : setKey (key f) f = f.
Proof. now destruct f. Qed.

Lemma at_index_nat {A : Type} (l : list A) (n : nat) :
  at_index l (Z.of_nat n) = l !! n.
Proof.
  unfold at_index. destruct (Z.ltb_spec (Z.of_nat n) 0); [lia |].
  now rewrite Nat2Z.id.
Qed.

(** A state whose footprint is already the injection at its key is left
    alone. *)
Lemma autoSave_saved (l : list (list string)) (f : Footprint) (tab : Tab) (s : bool) :
  0 <= key f < Z.of_nat (List.length l) ->
  l !! Z.to_nat (key f) = Some [type f; name f; content f] ->
  autoSave (mkUi (Some l) f tab s) = mkUi (Some l) f tab s.
Proof.
  intros Hk Hl. unfold autoSave.
  cbn [footprintToEdit injectionInput default from_option id].
  destruct (key f =? -1); [reflexivity |].
  destruct (String.eqb (name f) ""); [reflexivity |].
  destruct (String.eqb (content f) ""); [reflexivity |].
  destruct (Z.eqb_spec (Z.of_nat (List.length l)) 0) as [H0 | _]; [lia |].
  destruct (Z.eqb_spec (Z.of_nat (List.length l)) (key f)) as [H1 | _]; [lia |].
  cbn [orb]. unfold at_index.
  destruct (Z.ltb_spec (key f) 0); [lia |].
  rewrite Hl. cbn. rewrite !bool_decide_eq_true_2 by reflexivity. reflexivity.
Qed.

(** What the effect does once its three guards are passed. *)
Lemma autoSave_guards_passed (ui : Ui) :
  0 <= key (footprintToEdit ui) ->
  name (footprintToEdit ui) <> "" ->
  content (footprintToEdit ui) <> "" ->
  let f := footprintToEdit ui in
  let l := default [] (injectionInput ui) in
  let edited := [type f; name f; content f] in
  autoSave ui =
    if (Z.of_nat (List.length l) =? 0) || (Z.of_nat (List.length l) =? key f)
    then mkUi (Some (l ++ [edited])%list) (setKey (Z.of_nat (List.length l)) f)
           (activeEditorTab ui) (showSettings ui)
    else
      match l !! Z.to_nat (key f) with
      | Some existing =>
          if bool_decide (existing !! 0%nat = Some (type f))
             && bool_decide (existing !! 1%nat = Some (name f))
             && bool_decide (existing !! 2%nat = Some (content f))
          then ui
          else mkUi (Some (<[Z.to_nat (key f) := edited]> l)) f
                 (activeEditorTab ui) (showSettings ui)
      | None => mkUi (Some (<[Z.to_nat (key f) := edited]> l)) f
                  (activeEditorTab ui) (showSettings ui)
      end.
Proof.
  intros Hk Hn Hc f l edited. subst f l edited. unfold autoSave.
  destruct (Z.eqb_spec (key (footprintToEdit ui)) (-1)); [lia |].
  destruct (String.eqb_spec (name (footprintToEdit ui)) ""); [contradiction |].
  destruct (String.eqb_spec (content (footprintToEdit ui)) ""); [contradiction |].
  destruct (_ || _); [reflexivity |].
  unfold at_index. destruct (Z.ltb_spec (key (footprintToEdit ui)) 0); [lia |].
  rewrite mapIndexed_insert by lia. rewrite Z.sub_0_r.
  destruct (_ !! _) as [existing |]; [| reflexivity].
  destruct (_ && _); reflexivity.
Qed.

(** After the effect the injection at the footprint's key holds its type,
    name and content, the injections that were there at other indices
    are as before, and the footprint in the editor is unchanged. *)
Theorem autosave_stores_footprint (ui : Ui) :
  let f := footprintToEdit ui in
  let l := default [] (injectionInput ui) in
  name f <> "" -> content f <> "" ->
  0 <= key f <= Z.of_nat (List.length l) ->
  exists l' saved,
    injectionInput (autoSave ui) = Some l'
    /\ footprintToEdit (autoSave ui) = f
    /\ l' !! Z.to_nat (key f) = Some saved
    /\ saved !! 0%nat = Some (type f)
    /\ saved !! 1%nat = Some (name f)
    /\ saved !! 2%nat = Some (content f)
    /\ (forall j, j <> Z.to_nat (key f) -> (j < List.length l)%nat -> l' !! j = l !! j)
    /\ List.length l'
       = (if key f =? Z.of_nat (List.length l)
          then S (List.length l) else List.length l).
Proof.
  intros f l Hn Hc Hk. subst f l.
  rewrite (autoSave_guards_passed ui (proj1 Hk) Hn Hc). cbv zeta.
  set (f := footprintToEdit ui) in *. set (l := default [] (injectionInput ui)) in *.
  destruct (Z.eqb_spec (Z.of_nat (List.length l)) 0) as [H0 | H0];
    [| destruct (Z.eqb_spec (Z.of_nat (List.length l)) (key f)) as [H1 | H1]];
    cbn [orb].
  - assert (Hkey : key f = Z.of_nat (List.length l)) by lia.
    exists (l ++ [[type f; name f; content f]])%list, [type f; name f; content f].
    cbn [injectionInput footprintToEdit].
    rewrite <- Hkey at 1. rewrite setKey_same.
    rewrite Hkey, Nat2Z.id, Z.eqb_refl, length_app. cbn [List.length].
    repeat split; try reflexivity.
    + now rewrite list_lookup_middle.
    + intros j _ Hj. now apply lookup_app_l.
    + lia.
  - exists (l ++ [[type f; name f; content f]])%list, [type f; name f; content f].
    cbn [injectionInput footprintToEdit].
    rewrite H1 at 1. rewrite setKey_same.
    rewrite <- H1, Nat2Z.id, Z.eqb_refl, length_app. cbn [List.length].
    repeat split; try reflexivity.
    + now rewrite list_lookup_middle.
    + intros j _ Hj. now apply lookup_app_l.
    + lia.
  - assert (Hin : (Z.to_nat (key f) < List.length l)%nat) by lia.
    destruct (Z.eqb_spec (key f) (Z.of_nat (List.length l))) as [Heq | _]; [lia |].
    destruct (lookup_lt_is_Some_2 l _ Hin) as [existing Hex]. rewrite Hex.
    destruct (bool_decide (existing !! 0%nat = Some (type f))
              && bool_decide (existing !! 1%nat = Some (name f))
              && bool_decide (existing !! 2%nat = Some (content f))) eqn:Hsame.
    + apply andb_prop in Hsame as [Hsame H2]. apply andb_prop in Hsame as [H0' H1'].
      apply bool_decide_eq_true_1 in H0', H1', H2.
      assert (Hsome : injectionInput ui = Some l).
      { subst l. destruct (injectionInput ui); [reflexivity |]. cbn in H0. lia. }
      exists l, existing. repeat split; assumption.
    + exists (<[Z.to_nat (key f) := [type f; name f; content f]]> l),
        [type f; name f; content f].
      cbn [injectionInput footprintToEdit].
      repeat split; try reflexivity.
      * now apply list_lookup_insert_eq.
      * intros j Hj _. apply list_lookup_insert_ne. congruence.
      * apply length_insert.
Qed.

(** The effect settles after one run: the update it makes does not call
    for another. *)
Theorem autosave_settles (ui : Ui) :
  -1 <= key (footprintToEdit ui)
     <= Z.of_nat (List.length (default [] (injectionInput ui))) ->
  autoSave (autoSave ui) = autoSave ui.
Proof.
  intros Hk.
  destruct (Z.eq_dec (key (footprintToEdit ui)) (-1)) as [Hnone | Hsel].
  { assert (H : autoSave ui = ui).
    { unfold autoSave. rewrite Hnone. reflexivity. }
    now rewrite !H. }
  destruct (String.eqb_spec (name (footprintToEdit ui)) "") as [Hn | Hn].
  { assert (H : autoSave ui = ui).
    { unfold autoSave. rewrite Hn. destruct (_ =? -1); reflexivity. }
    now rewrite !H. }
  destruct (String.eqb_spec (content (footprintToEdit ui)) "") as [Hc | Hc].
  { assert (H : autoSave ui = ui).
    { unfold autoSave. rewrite Hc.
      destruct (_ =? -1); [reflexivity |]. destruct (String.eqb _ ""); reflexivity. }
    now rewrite !H. }
  assert (Hk0 : 0 <= key (footprintToEdit ui)) by lia.
  pose proof (autoSave_guards_passed ui Hk0 Hn Hc) as Hstep. cbv zeta in Hstep.
  set (f := footprintToEdit ui) in *. set (l := default [] (injectionInput ui)) in *.
  destruct ((Z.of_nat (List.length l) =? 0) || (Z.of_nat (List.length l) =? key f))
    eqn:Hnew.
  - rewrite Hstep. apply autoSave_saved; cbn [key setKey type name content].
    + rewrite length_app. cbn [List.length]. lia.
    + rewrite Nat2Z.id. now rewrite list_lookup_middle.
  - apply orb_false_elim in Hnew as [H0 H1].
    apply Z.eqb_neq in H0, H1.
    assert (Hin : (Z.to_nat (key f) < List.length l)%nat) by lia.
    destruct (lookup_lt_is_Some_2 l _ Hin) as [existing Hex]. rewrite Hex in Hstep.
    destruct (bool_decide (existing !! 0%nat = Some (type f))
              && bool_decide (existing !! 1%nat = Some (name f))
              && bool_decide (existing !! 2%nat = Some (content f))).
    + now rewrite !Hstep.
    + rewrite Hstep. apply autoSave_saved.
      * rewrite length_insert. lia.
      * now apply list_lookup_insert_eq.
Qed.

Lemma footprintTemplate_nonempty : footprintTemplate <> "".
Proof. discriminate. Qed.

(** [createFootprint] followed by the auto-save effect appends the new
    footprint, under the given name or the default one, as the last
    injection; the editor shows it on the footprints tab with the settings
    closed, the footprint list contains it, and the effect has nothing
    more to do. *)
Theorem create_then_save_appends (given : option string) (ui : Ui) :
  let l := default [] (injectionInput ui) in
  let n := Z.of_nat (List.length l) in
  let footprintName :=
    if text_nonempty given then default "" given
    else "custom_footprint_" +:+ pretty (n + 1) in
  let created := mkFootprint n "footprint" footprintName footprintTemplate in
  let ui1 := autoSave (createFootprint given ui) in
  ui1 = mkUi (Some (l ++ [["footprint"; footprintName; footprintTemplate]])%list)
          created FootprintsTab false
  /\ autoSave ui1 = ui1
  /\ created ∈ footprints ui1.
Proof.
  intros l n footprintName created ui1.
  assert (Hname : footprintName <> "").
  { subst footprintName. unfold text_nonempty.
    destruct given as [s |]; [| discriminate].
    destruct (String.eqb_spec s ""); [discriminate | assumption]. }
  assert (Hcreate : createFootprint given ui
                    = mkUi (injectionInput ui) created FootprintsTab false).
  { unfold createFootprint. subst created footprintName n l.
    destruct (injectionInput ui); reflexivity. }
  assert (Hui1 : ui1 = mkUi (Some (l ++ [["footprint"; footprintName; footprintTemplate]])%list)
                         created FootprintsTab false).
  { subst ui1. rewrite Hcreate.
    rewrite autoSave_guards_passed;
      cbn [footprintToEdit injectionInput key name content type created
           activeEditorTab showSettings];
      [| subst created n; cbn; lia | exact Hname | exact footprintTemplate_nonempty].
    fold l. fold n. subst created. cbn [key type name content setKey].
    rewrite Z.eqb_refl, orb_true_r. reflexivity. }
  split; [exact Hui1 |].
  split.
  - rewrite Hui1. apply autoSave_saved; subst created; cbn [key type name content].
    + rewrite length_app. cbn [List.length]. lia.
    + subst n. rewrite Nat2Z.id. now rewrite list_lookup_middle.
  - rewrite Hui1. unfold footprints. cbn [injectionInput].
    apply collectFootprints_spec. subst created. cbn [key type name content].
    repeat split; [lia |].
    rewrite Z.sub_0_r. subst n. rewrite Nat2Z.id. now rewrite list_lookup_middle.
Qed.

End EditorFacts.

(** ** Calls a quiet period apart *)

Section Separated.

Variables JSON_parse yaml_load : string -> option Js.value.
Variable env : Env.

Local Abbreviation runGen := (runGeneration JSON_parse yaml_load env).
Local Abbreviation run' := (run JSON_parse yaml_load env).
Local Abbreviation invocations := (invocations JSON_parse yaml_load env).

(** Two debounced calls at least 300 ms apart are not merged: each gets its
    own generation, in the order of the calls and with its own arguments,
    and the timer is free afterwards. *)
Theorem separated_calls_generate_separately
    (a b : Args) (gap quiet : Z) (st : State) :
  300 <= gap -> 300 <= quiet ->
  let evs := [CallProcessInput a; Elapse gap; CallProcessInput b; Elapse quiet] in
  invocations evs st = [a; b]
  /\ timer (run' evs st) = None
  /\ currentConfigVersion (run' evs st)
     = currentConfigVersion st
       + (if text_nonempty (textInput a) then 1 else 0)
       + (if text_nonempty (textInput b) then 1 else 0).
Proof.
  intros Hgap Hquiet evs.
  assert (Hg : (300 <=? gap) = true) by (apply Z.leb_le; lia).
  assert (Hq : (300 <=? quiet) = true) by (apply Z.leb_le; lia).
  assert (Hinv : invocations evs st = [a; b]).
  { subst evs. cbn [invocations invoked step app processInput timer setTimer].
    rewrite Hg. cbn [app]. rewrite Hq. reflexivity. }
  split; [exact Hinv |]. split.
  - subst evs. cbn [run fold_left step].
    unfold elapse at 1, processInput at 1. cbn [timer setTimer]. rewrite Hq.
    cbn [advanceClock timer]. now rewrite runGeneration_timer.
  - rewrite run_version, Hinv. unfold generations. cbn [List.filter].
    destruct (text_nonempty (textInput a)), (text_nonempty (textInput b));
      cbn; lia.
Qed.

End Separated.

(** ** Instances on the sample data *)

Lemma generation_forgets_error_and_warning_witness :
  runGeneration Sample.no_json Sample.yaml Sample.env_up (Sample.args "points: {}")
    (setError (Some "old error") (setDeprecationWarning (Some "old warning") Sample.st0))
  = runGeneration Sample.no_json Sample.yaml Sample.env_up (Sample.args "points: {}")
      Sample.st0.
Proof.
  exact (proj1 (generation_forgets_error_and_warning Sample.no_json Sample.yaml
                  Sample.env_up (Sample.args "points: {}")
                  (Some "old error") (Some "old warning") Sample.st0 eq_refl)).
Defined.

Lemma unparseable_snapshot_sent_verbatim_witness :
  (inputConfig <$>
     ergogenOut (runGeneration Sample.no_json Sample.yaml Sample.env_up
                   (Sample.args "points: [") Sample.st0))
  = [Js.Str "points: ["].
Proof.
  destruct (unparseable_snapshot_sent_verbatim Sample.no_json Sample.yaml
              Sample.env_up (Sample.args "points: [") "points: [" Sample.st0
              eq_refl ltac:(discriminate) eq_refl eq_refl eq_refl) as (Hout & _).
  rewrite Hout. reflexivity.
Defined.

Lemma null_pcb_entry_aborts_generation_witness :
  let st' :=
    runGeneration Sample.no_json Sample2.yaml Sample.env_up
      (Sample.full Sample2.null_pcb_text) Sample.st0 in
  ergogenOut st' = [] /\ isGenerating st' = true /\ currentConfigVersion st' = 1.
Proof.
  intros st'. subst st'.
  destruct (null_pcb_entry_aborts_generation Sample.no_json Sample2.yaml
              Sample.env_up (Sample.full Sample2.null_pcb_text)
              Sample2.null_pcb_text
              [("points", Js.Obj []);
               ("pcbs", Js.Obj [("empty", Js.Null); ("kb", Js.Obj [])])]
              [] [("kb", Js.Obj [])] "empty" Sample.st0
              eq_refl ltac:(discriminate) eq_refl eq_refl (List.Forall_nil _))
    as (_ & Hout & Hbusy & Hv).
  repeat split; assumption.
Defined.

Lemma points_only_request_is_stripped_witness :
  exists sent,
    inputConfig (buildRequest Sample.no_json Sample.yaml Sample.env_up
                   Sample.legacy_text (Sample.args Sample.legacy_text) Sample.st0)
    = Js.Obj sent
    /\ Js.lookup_field "pcbs" sent = Js.Undefined
    /\ Js.lookup_field "points" sent = Js.Obj [("zones", Js.Obj [])].
Proof.
  destruct (points_only_request_is_stripped Sample.no_json Sample.yaml Sample.env_up
              (Sample.args Sample.legacy_text) Sample.legacy_text
              [("points", Js.Obj [("zones", Js.Obj [])]);
               ("pcbs",
                Js.Obj
                  [("kb",
                    Js.Obj
                      [("footprints",
                        Js.Obj
                          [("x", Js.Obj [("what", Js.Str "ceoloide/switch_mx")])])])])]
              Sample.st0 eq_refl eq_refl eq_refl (or_intror eq_refl))
    as (sent & Hsent & Hpcbs & _ & Hother).
  exists sent. split; [exact Hsent |]. split; [exact Hpcbs |].
  rewrite Hother by discriminate. reflexivity.
Defined.

Lemma primary_stamps_strictly_increase_witness :
  stampsOrdered
    (run Sample.no_json Sample.yaml Sample.env_up Sample.stale_overwrite Sample.st0).
Proof.
  apply primary_stamps_strictly_increase.
  split; [constructor | constructor].
Defined.

Lemma conversion_requests_well_formed_witness :
  conversionsWellFormed
    (run Sample.no_json Sample.yaml Sample.env_up Sample.stale_overwrite Sample.st0).
Proof.
  apply conversion_requests_well_formed. constructor.
Defined.

Lemma results_version_tracks_results_witness :
  let evs :=
    [CallGenerateNow (Sample.full "points: {}");
     ErgogenMessage (ErgogenError "Input does not contain any points!")] in
  results (run Sample.no_json Sample.yaml Sample.env_up evs Sample.st0)
  = results Sample.st0.
Proof.
  intros evs.
  exact (proj2 (results_version_tracks_results Sample.no_json Sample.yaml
                  Sample.env_up evs Sample.st0) eq_refl).
Defined.

Lemma superseded_conversion_dropped_witness :
  let st :=
    run Sample.no_json Sample.yaml Sample.env_up
      [ErgogenMessage (ErgogenSuccess (Some Sample.doc_two) [])]
      (generateNow Sample.no_json Sample.yaml Sample.env_up
         (Sample.full "points: {}") Sample.st0) in
  handleJscadWorkerMessage
    (mkJscadResponse JscadSuccess 0 (Some Sample.doc_one_meshed)) st = st.
Proof.
  intros st. subst st.
  apply (superseded_conversion_dropped Sample.no_json Sample.yaml Sample.env_up
           (Sample.full "points: {}")
           (mkJscadResponse JscadSuccess 0 (Some Sample.doc_one_meshed))).
  - reflexivity.
  - cbn. lia.
Defined.

Lemma generateNow_replaces_pending_call_witness :
  invocations Sample.no_json Sample.yaml Sample.env_up
    [CallProcessInput (Sample.args "points: {}"); Elapse 120;
     CallGenerateNow (Sample.full "points: {}"); Elapse 5000] Sample.st0
  = [Sample.full "points: {}"].
Proof.
  exact (proj1 (generateNow_replaces_pending_call Sample.no_json Sample.yaml
                  Sample.env_up (Sample.args "points: {}") (Sample.full "points: {}")
                  120 5000 Sample.st0 ltac:(lia))).
Defined.

Lemma separated_calls_generate_separately_witness :
  invocations Sample.no_json Sample.yaml Sample.env_up
    [CallProcessInput (Sample.args "points: {}"); Elapse 300;
     CallProcessInput (Sample.args Sample.legacy_text); Elapse 300] Sample.st0
  = [Sample.args "points: {}"; Sample.args Sample.legacy_text].
Proof.
  exact (proj1 (separated_calls_generate_separately Sample.no_json Sample.yaml
                  Sample.env_up (Sample.args "points: {}")
                  (Sample.args Sample.legacy_text) 300 300 Sample.st0
                  ltac:(lia) ltac:(lia))).
Defined.

Lemma footprints_are_the_footprint_injections_witness :
  Editor.mkFootprint 0 "footprint" "diode" "module.exports = {}"
    ∈ Editor.footprints Sample2.ui0.
Proof.
  apply EditorFacts.footprints_are_the_footprint_injections.
  exists Sample2.two_injections. repeat split.
Defined.

Lemma delete_keeps_selection_witness :
  let selected := Editor.mkFootprint 1 "template" "kicad8" "module.exports = {}" in
  let ui := Editor.setFootprintToEdit selected Sample2.ui0 in
  let ui' :=
    Editor.handleDeleteFootprint
      (Editor.mkFootprint 0 "footprint" "diode" "module.exports = {}") ui in
  Editor.at_index (delete 0%nat Sample2.two_injections)
    (Editor.key (Editor.footprintToEdit ui'))
  = Some ["template"; "kicad8"; "module.exports = {}"].
Proof.
  intros selected ui ui'.
  destruct (EditorFacts.delete_keeps_selection
              (Editor.mkFootprint 0 "footprint" "diode" "module.exports = {}")
              ui Sample2.two_injections eq_refl ltac:(cbn; lia))
    as (_ & _ & Hkeep).
  destruct (Hkeep ltac:(discriminate)) as (Hat & _).
  exact Hat.
Defined.

Lemma autosave_stores_footprint_witness :
  let edited := Editor.mkFootprint 0 "footprint" "diode_smd" "module.exports = {}" in
  let ui := Editor.setFootprintToEdit edited Sample2.ui0 in
  exists l' saved,
    Editor.injectionInput (Editor.autoSave ui) = Some l'
    /\ l' !! 0%nat = Some saved
    /\ saved !! 1%nat = Some "diode_smd"
    /\ l' !! 1%nat = Sample2.two_injections !! 1%nat.
Proof.
  intros edited ui.
  destruct (EditorFacts.autosave_stores_footprint ui
              ltac:(discriminate) ltac:(discriminate) ltac:(cbn; lia))
    as (l' & saved & Hl' & _ & Hsaved & _ & Hname & _ & Hframe & _).
  exists l', saved. repeat split; try assumption.
  apply Hframe; [discriminate | cbn; lia].
Defined.

Lemma autosave_settles_witness :
  let edited := Editor.mkFootprint 2 "footprint" "led" "module.exports = {}" in
  let ui := Editor.setFootprintToEdit edited Sample2.ui0 in
  Editor.autoSave (Editor.autoSave ui) = Editor.autoSave ui.
Proof.
  intros edited ui. apply EditorFacts.autosave_settles. cbn. lia.
Defined.
